(** * Amazon Bedrock Knowledge Bases retriever: request building, result
      decoding and score filtering

    A shallow embedding of [langchain_aws/retrievers/bedrock.py].  Python
    values are a JSON-like tree; a [dict] is an association list in insertion
    order (the order [json.dumps] prints); exceptions are an error monad. *)

From Stdlib Require Import ZArith List String Ascii Bool Lia DecimalString.
From Stdlib Require Import Floats.SpecFloat.
Import ListNotations.
Open Scope string_scope.
Open Scope Z_scope.
Set Warnings "-register-all".

(** ** Python values *)

(** A Python [str] is modelled by [string]; its characters are the code points
    below 256.  A Python [float] is a [spec_float] (binary64 when
    [valid_binary 53 1024] holds). *)
Inductive pyval : Type :=
| PNone
| PBool (b : bool)
| PInt (n : Z)
| PFloat (f : spec_float)
| PStr (s : string)
| PList (l : list pyval)
| PDict (d : list (string * pyval)).

Definition dict := list (string * pyval).

(** ** Exceptions *)

Inductive exn : Type :=
| ValueError (msg : string)
| AttributeError
| TypeError
| KeyError (key : string)
| ValidationError.

Inductive outcome (A : Type) : Type :=
| Ok (a : A)
| Raise (e : exn).
Arguments Ok {A} a.
Arguments Raise {A} e.

Definition bind {A B} (m : outcome A) (k : A -> outcome B) : outcome B :=
  match m with
  | Ok a => k a
  | Raise e => Raise e
  end.

Notation "x <- m ;; k" := (bind m (fun x => k))
  (at level 61, m at next level, right associativity).

(** ** Dictionaries *)

Module Dict.

(** [d.get(k)] *)
Fixpoint get (k : string) (d : dict) : option pyval :=
  match d with
  | [] => None
  | (k', v) :: d' => if String.eqb k k' then Some v else get k d'
  end.

(** [k in d] *)
Definition mem (k : string) (d : dict) : bool :=
  match get k d with Some _ => true | None => false end.

(** the entries of [d] without key [k]; the keys of a [dict] are unique, and
    every entry under [k] goes, so that no lemma needs the uniqueness *)
Fixpoint remove (k : string) (d : dict) : dict :=
  match d with
  | [] => []
  | (k', v) :: d' =>
      if String.eqb k k' then remove k d' else (k', v) :: remove k d'
  end.

(** [d[k] = v]: an existing key keeps its position, a new one goes last *)
Fixpoint set (k : string) (v : pyval) (d : dict) : dict :=
  match d with
  | [] => [(k, v)]
  | (k', v') :: d' =>
      if String.eqb k k' then (k, v) :: d' else (k', v') :: set k v d'
  end.

(** [d.pop(k)] *)
Definition pop (k : string) (d : dict) : outcome (pyval * dict) :=
  match get k d with
  | Some v => Ok (v, remove k d)
  | None => Raise (KeyError k)
  end.

Definition keys (d : dict) : list string := map fst d.

(** two dictionaries that hold the same value under every key *)
Definition same_mapping (d1 d2 : dict) : Prop :=
  forall k, get k d1 = get k d2.

End Dict.

(** ** Truth value and the operators the retriever uses *)

Definition float_is_zero (f : spec_float) : bool :=
  match f with S754_zero _ => true | _ => false end.

(** [bool(v)] *)
Definition truthy (v : pyval) : bool :=
  match v with
  | PNone => false
  | PBool b => b
  | PInt n => negb (n =? 0)
  | PFloat f => negb (float_is_zero f)
  | PStr s => negb (String.eqb s "")
  | PList l => match l with [] => false | _ => true end
  | PDict d => match d with [] => false | _ => true end
  end.

(** [v is not None] *)
Definition is_not_None (v : pyval) : bool :=
  match v with PNone => false | _ => true end.

(** [v == s] for a [str] literal [s] *)
Definition eq_str (v : pyval) (s : string) : bool :=
  match v with PStr t => String.eqb t s | _ => false end.

(** [o.get(k, default)]: only a [dict] has the method *)
Definition py_get (o : pyval) (k : string) (default : pyval) : outcome pyval :=
  match o with
  | PDict d => Ok (match Dict.get k d with Some v => v | None => default end)
  | _ => Raise AttributeError
  end.

(** [o[k]] for a string key *)
Definition py_getitem (o : pyval) (k : string) : outcome pyval :=
  match o with
  | PDict d =>
      match Dict.get k d with Some v => Ok v | None => Raise (KeyError k) end
  | _ => Raise TypeError
  end.

(** ** Numbers: exact comparison of [int], [bool] and [float] *)

(** A finite number as [m * 2^e]; the two infinities; not-a-number. *)
Inductive num : Type :=
| Dyadic (m e : Z)
| Inf (negative : bool)
| NaN.

Definition num_of_float (f : spec_float) : num :=
  match f with
  | S754_zero _ => Dyadic 0 0
  | S754_infinity s => Inf s
  | S754_nan => NaN
  | S754_finite s m e => Dyadic (if s then Z.neg m else Z.pos m) e
  end.

Definition num_of (v : pyval) : option num :=
  match v with
  | PBool b => Some (Dyadic (Z.b2z b) 0)
  | PInt n => Some (Dyadic n 0)
  | PFloat f => Some (num_of_float f)
  | _ => None
  end.

(** [Some c] when both are ordered, [None] when one is not-a-number *)
Definition num_compare (x y : num) : option comparison :=
  match x, y with
  | NaN, _ | _, NaN => None
  | Inf sx, Inf sy =>
      Some (match sx, sy with
            | true, false => Lt
            | false, true => Gt
            | _, _ => Eq
            end)
  | Inf s, Dyadic _ _ => Some (if s then Lt else Gt)
  | Dyadic _ _, Inf s => Some (if s then Gt else Lt)
  | Dyadic m1 e1, Dyadic m2 e2 =>
      let e := Z.min e1 e2 in
      Some (Z.compare (m1 * 2 ^ (e1 - e)) (m2 * 2 ^ (e2 - e)))
  end.

(** [x >= y] on numbers: false as soon as one side is not-a-number *)
Definition num_ge (x y : num) : bool :=
  match num_compare x y with
  | Some Gt | Some Eq => true
  | _ => false
  end.

(** [v >= f] for a float [f]: a [TypeError] unless [v] is a number *)
Definition py_ge_float (v : pyval) (f : spec_float) : outcome bool :=
  match num_of v with
  | Some x => Ok (num_ge x (num_of_float f))
  | None => Raise TypeError
  end.

(** ** [str.strip()] *)

(** [str.isspace] on one character: the white-space code points below 256 *)
Definition isspace (c : ascii) : bool :=
  let n := N_of_ascii c in
  ((9 <=? n) && (n <=? 13) || (28 <=? n) && (n <=? 32)
   || (n =? 133) || (n =? 160))%N.

Fixpoint lstrip (s : string) : string :=
  match s with
  | EmptyString => EmptyString
  | String c s' => if isspace c then lstrip s' else s
  end.

Fixpoint rstrip (s : string) : string :=
  match s with
  | EmptyString => EmptyString
  | String c s' =>
      match rstrip s' with
      | EmptyString => if isspace c then EmptyString else String c EmptyString
      | r => String c r
      end
  end.

Definition strip (s : string) : string := rstrip (lstrip s).

(** what it means to be trimmed *)
Fixpoint all_space (s : string) : bool :=
  match s with
  | EmptyString => true
  | String c s' => isspace c && all_space s'
  end.

Definition starts_with_space (s : string) : bool :=
  match s with
  | EmptyString => false
  | String c _ => isspace c
  end.

Fixpoint ends_with_space (s : string) : bool :=
  match s with
  | EmptyString => false
  | String c EmptyString => isspace c
  | String _ s' => ends_with_space s'
  end.

(** ** [json.dumps] with its default options *)

Module Json.

Definition dquote : ascii := ascii_of_N 34.
Definition backslash : ascii := ascii_of_N 92.

Definition digits (n : Z) : string :=
  NilZero.string_of_uint (N.to_uint (Z.to_N n)).

(** [int.__repr__] *)
Definition int_repr (n : Z) : string :=
  if n <? 0 then "-" ++ digits (- n) else digits n.

Fixpoint zeros (n : nat) : string :=
  match n with O => "" | S n' => String "0" (zeros n') end.

(** *** [float.__repr__]: the shortest decimal that reads back as the same
    binary64 *)

Section Shortest.
(** the float is [m * 2^e], [m > 0] *)
Variables (m : positive) (e : Z).

(** in units of [2^(e-2)]: the value and the ends of its rounding
    interval (the lower half is narrower just above a power of two) *)
Definition unit_exp : Z := e - 2.
Definition mid : Z := 4 * Z.pos m.
Definition lower : Z :=
  if (Z.pos m =? 2 ^ 52) && (-1074 <? e) then mid - 1 else mid - 2.
Definition upper : Z := mid + 2.
Definition closed_interval : bool := Z.even (Z.pos m).

(** scale factors that compare [v * 2^unit_exp] with [q * 10^p] in
    integers *)
Definition scale_l (p : Z) : Z := 2 ^ Z.max unit_exp 0 * 10 ^ Z.max (- p) 0.
Definition scale_r (p : Z) : Z := 2 ^ Z.max (- unit_exp) 0 * 10 ^ Z.max p 0.

Definition ge_pow10 (t : Z) : bool := scale_r t <=? mid * scale_l t.

(** [floor (log10 (m * 2^e))] *)
Definition floor_log10 : Z :=
  let t0 := (Z.log2 mid + unit_exp) * 30103 / 100000 in
  let up t := if ge_pow10 (t + 1) then t + 1 else t in
  let down t := if ge_pow10 t then t else t - 1 in
  down (down (up (up t0))).

Definition inside (q p : Z) : bool :=
  let c := q * scale_r p in
  if closed_interval
  then (lower * scale_l p <=? c) && (c <=? upper * scale_l p)
  else (lower * scale_l p <? c) && (c <? upper * scale_l p).

(** the decimal with [k] digits nearest to the value, when one lies in
    the rounding interval *)
Definition candidate (k : Z) : option (Z * Z) :=
  let p := floor_log10 - (k - 1) in
  let x := mid * scale_l p in
  let qf := x / scale_r p in
  let qc := qf + 1 in
  let df := x - qf * scale_r p in
  let dc := qc * scale_r p - x in
  match inside qf p, inside qc p with
  | true, true =>
      if df <? dc then Some (qf, p)
      else if dc <? df then Some (qc, p)
      else Some (if Z.even qf then qf else qc, p)
  | true, false => Some (qf, p)
  | false, true => Some (qc, p)
  | false, false => None
  end.

Fixpoint search (fuel : nat) (k : Z) : Z * Z :=
  match candidate k, fuel with
  | Some qp, _ => qp
  | None, S fuel' => search fuel' (k + 1)
  | None, O => (mid * scale_l (floor_log10 - k) / scale_r (floor_log10 - k),
                floor_log10 - k)
  end.

Fixpoint drop_zeros (fuel : nat) (q p : Z) : Z * Z :=
  match fuel with
  | S fuel' => if (q mod 10 =? 0) && negb (q =? 0)
               then drop_zeros fuel' (q / 10) (p + 1) else (q, p)
  | O => (q, p)
  end.

(** the digits and the position of the decimal point *)
Definition shortest : string * Z :=
  let (q, p) := search 17 1 in
  let (q', p') := drop_zeros 400 q p in
  (digits q', Z.of_nat (String.length (digits q')) + p').
End Shortest.

Definition exponent (x : Z) : string :=
  (if x <? 0 then "-" else "+")
    ++ (if Z.abs x <? 10 then "0" else "") ++ digits (Z.abs x).

(** the layout of format code ['r'] *)
Definition layout (ds : string) (decpt : Z) : string :=
  let n := Z.of_nat (String.length ds) in
  if (decpt <=? -4) || (16 <? decpt) then
    substring 0 1 ds
      ++ (if 1 <? n then "." ++ substring 1 (String.length ds - 1) ds else "")
      ++ "e" ++ exponent (decpt - 1)
  else if decpt <=? 0 then "0." ++ zeros (Z.to_nat (- decpt)) ++ ds
  else if n <=? decpt then ds ++ zeros (Z.to_nat (decpt - n)) ++ ".0"
  else substring 0 (Z.to_nat decpt) ds ++ "."
         ++ substring (Z.to_nat decpt) (String.length ds - Z.to_nat decpt) ds.

Definition float_repr (f : spec_float) : string :=
  match f with
  | S754_zero s => if s then "-0.0" else "0.0"
  | S754_infinity s => if s then "-inf" else "inf"
  | S754_nan => "nan"
  | S754_finite s m e =>
      let (ds, decpt) := shortest m e in
      (if s then "-" else "") ++ layout ds decpt
  end.

(** [json.encoder.float_repr], with [allow_nan=True] *)
Definition float_json (f : spec_float) : string :=
  match f with
  | S754_nan => "NaN"
  | S754_infinity s => if s then "-Infinity" else "Infinity"
  | _ => float_repr f
  end.

Definition hex_digit (n : N) : ascii :=
  if (n <? 10)%N then ascii_of_N (48 + n) else ascii_of_N (87 + n).

(** one character under [ensure_ascii=True] *)
Definition escape (c : ascii) : string :=
  let n := N_of_ascii c in
  if (n =? 34)%N then String backslash (String dquote "")
  else if (n =? 92)%N then String backslash (String backslash "")
  else if (n =? 10)%N then "\n"
  else if (n =? 13)%N then "\r"
  else if (n =? 9)%N then "\t"
  else if (n =? 12)%N then "\f"
  else if (n =? 8)%N then "\b"
  else if ((32 <=? n) && (n <=? 126))%N then String c ""
  else "\u00" ++ String (hex_digit (n / 16)) (String (hex_digit (n mod 16)) "").

Fixpoint escape_all (s : string) : string :=
  match s with
  | EmptyString => EmptyString
  | String c s' => escape c ++ escape_all s'
  end.

(** [py_encode_basestring_ascii] *)
Definition str_json (s : string) : string :=
  String dquote (escape_all s ++ String dquote "").

(** [", ".join(items)] *)
Fixpoint join (items : list string) : string :=
  match items with
  | [] => ""
  | [x] => x
  | x :: rest => x ++ ", " ++ join rest
  end.

Fixpoint dumps (v : pyval) : string :=
  match v with
  | PNone => "null"
  | PBool b => if b then "true" else "false"
  | PInt n => int_repr n
  | PFloat f => float_json f
  | PStr s => str_json s
  | PList l => "[" ++ join (map dumps l) ++ "]"
  | PDict d =>
      "{" ++ join (map (fun kv => str_json (fst kv) ++ ": " ++ dumps (snd kv)) d)
          ++ "}"
  end.

End Json.

(** ** The configuration models

    Each class is a validated record; [model_dump] is the call the retriever
    makes, [model_dump(exclude_none=True, by_alias=True)]: fields in
    declaration order under their alias, a field that is [None] left out. *)

(** a field of a dumped model under [exclude_none] *)
Definition field (name : string) (v : option pyval) : dict :=
  match v with
  | Some x => [(name, x)]
  | None => []
  end.

Module SearchFilter.

(** [Filter = Dict[str, FilterValue]]; [in_] is declared with alias ["in"],
    [notIn] with alias ["notIn"]. *)
Inductive t : Type := Build {
  andAll : option (list t);
  orAll : option (list t);
  equals : option dict;
  greaterThan : option dict;
  greaterThanOrEquals : option dict;
  in_ : option dict;
  lessThan : option dict;
  lessThanOrEquals : option dict;
  listContains : option dict;
  notEquals : option dict;
  notIn : option dict;
  startsWith : option dict;
  stringContains : option dict
}.

(** every field at its default *)
Definition empty : t :=
  Build None None None None None None None None None None None None None.

Definition leaf (v : option dict) : option pyval :=
  match v with Some d => Some (PDict d) | None => None end.

Fixpoint model_dump (f : t) : dict :=
  match f with
  | Build a o eq gt ge i lt le lc ne ni sw sc =>
      let nodes (c : option (list t)) : option pyval :=
        match c with
        | Some l => Some (PList (map (fun x => PDict (model_dump x)) l))
        | None => None
        end in
      (field "andAll" (nodes a)
        ++ field "orAll" (nodes o)
        ++ field "equals" (leaf eq)
        ++ field "greaterThan" (leaf gt)
        ++ field "greaterThanOrEquals" (leaf ge)
        ++ field "in" (leaf i)
        ++ field "lessThan" (leaf lt)
        ++ field "lessThanOrEquals" (leaf le)
        ++ field "listContains" (leaf lc)
        ++ field "notEquals" (leaf ne)
        ++ field "notIn" (leaf ni)
        ++ field "startsWith" (leaf sw)
        ++ field "stringContains" (leaf sc))%list
  end.

(** an [Optional[Filter]] field from the value found under its key *)
Definition filter_field (v : option pyval) : outcome (option dict) :=
  match v with
  | None | Some PNone => Ok None
  | Some (PDict d) => Ok (Some d)
  | Some _ => Raise ValidationError
  end.

(** a field is found under its alias, or (populate_by_name) its name *)
Definition by_alias_or_name (alias name : string) (d : dict) : option pyval :=
  match Dict.get alias d with
  | Some v => Some v
  | None => Dict.get name d
  end.

(** an [Optional[List[SearchFilter]]] field from the value found under its
    key, [validate] checking one member *)
Definition each_with {A} (validate : pyval -> outcome A)
  : list pyval -> outcome (list A) :=
  fix each (l : list pyval) : outcome (list A) :=
    match l with
    | [] => Ok []
    | y :: l' =>
        c <- validate y;;
        cs <- each l';;
        Ok (c :: cs)
    end.

Definition nodes_with {A} (validate : pyval -> outcome A) (k : string)
  : dict -> outcome (option (list A)) :=
  fix nodes (d : dict) : outcome (option (list A)) :=
    match d with
    | [] => Ok None
    | (k', x) :: d' =>
        if String.eqb k k' then
          match x with
          | PNone => Ok None
          | PList l => cs <- each_with validate l;; Ok (Some cs)
          | _ => Raise ValidationError
          end
        else nodes d'
    end.

(** construction from a mapping; keys that are no field are ignored *)
Fixpoint model_validate (v : pyval) : outcome t :=
  match v with
  | PDict d =>
      let nodes := nodes_with model_validate in
      a <- nodes "andAll" d;;
      o <- nodes "orAll" d;;
      eq <- filter_field (Dict.get "equals" d);;
      gt <- filter_field (Dict.get "greaterThan" d);;
      ge <- filter_field (Dict.get "greaterThanOrEquals" d);;
      i <- filter_field (by_alias_or_name "in" "in_" d);;
      lt <- filter_field (Dict.get "lessThan" d);;
      le <- filter_field (Dict.get "lessThanOrEquals" d);;
      lc <- filter_field (Dict.get "listContains" d);;
      ne <- filter_field (Dict.get "notEquals" d);;
      ni <- filter_field (Dict.get "notIn" d);;
      sw <- filter_field (Dict.get "startsWith" d);;
      sc <- filter_field (Dict.get "stringContains" d);;
      Ok (Build a o eq gt ge i lt le lc ne ni sw sc)
  | _ => Raise ValidationError
  end.

End SearchFilter.

(** [Literal["HYBRID", "SEMANTIC"]] *)
Inductive SearchType : Type := HYBRID | SEMANTIC.

Definition SearchType_name (s : SearchType) : string :=
  match s with HYBRID => "HYBRID" | SEMANTIC => "SEMANTIC" end.

(** the fields a model keeps under [extra="allow"], dumped with
    [exclude_none] *)
Definition dump_extra (extra : dict) : dict :=
  List.filter (fun kv => is_not_None (snd kv)) extra.

Module VectorSearchConfig.

Record t : Type := Build {
  numberOfResults : Z;
  filter : option SearchFilter.t;
  overrideSearchType : option SearchType;
  extra : dict
}.

Definition search_type_field (v : option pyval) : outcome (option SearchType) :=
  match v with
  | None | Some PNone => Ok None
  | Some (PStr s) =>
      if String.eqb s "HYBRID" then Ok (Some HYBRID)
      else if String.eqb s "SEMANTIC" then Ok (Some SEMANTIC)
      else Raise ValidationError
  | Some _ => Raise ValidationError
  end.

Definition filter_field (v : option pyval) : outcome (option SearchFilter.t) :=
  match v with
  | None | Some PNone => Ok None
  | Some x => f <- SearchFilter.model_validate x;; Ok (Some f)
  end.

(** [VectorSearchConfig(numberOfResults=..., filter=..., ...)]: an argument
    left out is [None] here; [numberOfResults] is given as an [int], the
    annotation [int = 4] puts no bound on it; [kwargs] are the arguments
    under other names. *)
Definition new (numberOfResults : option Z) (filter overrideSearchType : option pyval)
    (kwargs : dict) : outcome t :=
  let n := match numberOfResults with Some n => n | None => 4 end in
  f <- filter_field filter;;
  s <- search_type_field overrideSearchType;;
  Ok (Build n f s
        (Dict.remove "numberOfResults"
           (Dict.remove "filter" (Dict.remove "overrideSearchType" kwargs)))).

Definition model_dump (c : t) : dict :=
  (field "numberOfResults" (Some (PInt (numberOfResults c)))
    ++ field "filter"
         (option_map (fun f => PDict (SearchFilter.model_dump f)) (filter c))
    ++ field "overrideSearchType"
         (option_map (fun s => PStr (SearchType_name s)) (overrideSearchType c))
    ++ dump_extra (extra c))%list.

End VectorSearchConfig.

Module RetrievalConfig.

Record t : Type := Build {
  vectorSearchConfiguration : VectorSearchConfig.t;
  nextToken : option string;
  extra : dict
}.

Definition model_dump (c : t) : dict :=
  (field "vectorSearchConfiguration"
      (Some (PDict (VectorSearchConfig.model_dump (vectorSearchConfiguration c))))
    ++ field "nextToken" (option_map PStr (nextToken c))
    ++ dump_extra (extra c))%list.

End RetrievalConfig.

(** ** The retriever *)

(** Modelled from the spec: [Document] is a class of [langchain_core], absent
    from the sources; the spec gives it a text body, which may be null, and a
    metadata mapping. *)
Record Document : Type := {
  page_content : pyval;
  metadata : dict
}.

(** [Optional[Union[RetrievalConfig, Dict[str, Any]]]] *)
Inductive retrieval_config_t : Type :=
| ConfigModel (c : RetrievalConfig.t)
| ConfigDict (d : dict).

Record AmazonKnowledgeBasesRetriever : Type := {
  knowledge_base_id : string;
  retrieval_config : option retrieval_config_t;
  min_score_confidence : option spec_float
}.

(** the condition of the list comprehension *)
Definition score_passes (min_score : spec_float) (item : Document) : outcome bool :=
  present <- py_get (PDict (metadata item)) "score" PNone;;
  if is_not_None present then
    score <- py_get (PDict (metadata item)) "score" (PFloat (S754_zero false));;
    py_ge_float score min_score
  else Ok false.

Fixpoint keep_passing (min_score : spec_float) (docs : list Document)
  : outcome (list Document) :=
  match docs with
  | [] => Ok []
  | item :: rest =>
      keep <- score_passes min_score item;;
      kept <- keep_passing min_score rest;;
      Ok (if keep then item :: kept else kept)
  end.

Definition _filter_by_score_confidence (self : AmazonKnowledgeBasesRetriever)
    (docs : list Document) : outcome (list Document) :=
  match min_score_confidence self with
  | None => Ok docs
  | Some min_score =>
      if negb (truthy (PFloat min_score)) then Ok docs
      else keep_passing min_score docs
  end.

Definition _get_retrieve_request (self : AmazonKnowledgeBasesRetriever)
    (query : string) : outcome dict :=
  let request :=
    [("retrievalQuery", PDict [("text", PStr (strip query))]);
     ("knowledgeBaseId", PStr (knowledge_base_id self))] in
  match retrieval_config self with
  | None => Ok request
  | Some (ConfigModel c) =>
      Ok (Dict.set "retrievalConfiguration"
            (PDict (RetrievalConfig.model_dump c)) request)
  | Some (ConfigDict d) =>
      if truthy (PDict d) then Raise AttributeError else Ok request
  end.

Definition _get_content_from_result (result : pyval) : outcome pyval :=
  if negb (truthy result) then Raise (ValueError "Invalid search result")
  else
    content <- py_get result "content" PNone;;
    if negb (truthy content) then
      Raise (ValueError "Invalid search result, content is missing from the result")
    else
      type <- py_get content "type" PNone;;
      if negb (truthy type) then py_get content "text" PNone
      else
        type <- py_getitem content "type";;
        if eq_str type "TEXT" then py_get content "text" PNone
        else if eq_str type "IMAGE" then py_get content "byteContent" PNone
        else if eq_str type "ROW" then
          row <- py_get content "row" (PList []);;
          Ok (PStr (Json.dumps (if truthy row then row else PList [])))
        else Ok PNone.

(** the body of the loop: one result to one document *)
Definition result_to_document (result : pyval) : outcome Document :=
  content <- _get_content_from_result result;;
  match result with
  | PDict result =>
      inner <- py_get (PDict result) "content" (PDict []);;
      type <- py_get inner "type" (PStr "TEXT");;
      let result := Dict.set "type" type result in
      popped <- Dict.pop "content" result;;
      let result := snd popped in
      let result :=
        if negb (Dict.mem "score" result)
        then Dict.set "score" (PInt 0) result else result in
      result <-
        (if Dict.mem "metadata" result then
           popped <- Dict.pop "metadata" result;;
           Ok (Dict.set "source_metadata" (fst popped) (snd popped))
         else Ok result);;
      Ok {| page_content := content; metadata := result |}
  | _ => Raise AttributeError
  end.

Fixpoint _retrieval_results_to_documents (results : list pyval)
  : outcome (list Document) :=
  match results with
  | [] => Ok []
  | result :: rest =>
      document <- result_to_document result;;
      documents <- _retrieval_results_to_documents rest;;
      Ok (document :: documents)
  end.

(** [for x in v]: the members of a list, the keys of a dict, the characters
    of a str; nothing else here is iterable *)
Fixpoint characters (s : string) : list pyval :=
  match s with
  | EmptyString => []
  | String c s' => PStr (String c EmptyString) :: characters s'
  end.

Definition py_iter (v : pyval) : outcome (list pyval) :=
  match v with
  | PList l => Ok l
  | PDict d => Ok (map (fun kv => PStr (fst kv)) d)
  | PStr s => Ok (characters s)
  | _ => Raise TypeError
  end.

(** [_get_relevant_documents], the remote call [self.client.retrieve] being
    a function of the request *)
Definition _get_relevant_documents (self : AmazonKnowledgeBasesRetriever)
    (client_retrieve : dict -> outcome pyval) (query : string)
  : outcome (list Document) :=
  retrieve_request <- _get_retrieve_request self query;;
  response <- client_retrieve retrieve_request;;
  results <- py_getitem response "retrievalResults";;
  results <- py_iter results;;
  documents <- _retrieval_results_to_documents results;;
  _filter_by_score_confidence self documents.

(** ** Inputs the properties are read on *)

Definition float_0_3 : spec_float := S754_finite false 5404319552844595 (-54).
Definition float_0_5 : spec_float := S754_finite false 4503599627370496 (-53).
Definition float_0_7 : spec_float := S754_finite false 6305039478318694 (-53).
Definition float_0_9 : spec_float := S754_finite false 8106479329266893 (-53).

(** [f > 0] *)
Definition float_positive (f : spec_float) : bool :=
  match num_compare (num_of_float f) (Dyadic 0 0) with
  | Some Gt => true
  | _ => false
  end.

(** the score of a document is present, not null, and at least [min_score] *)
Definition score_at_least (min_score : spec_float) (item : Document) : bool :=
  match Dict.get "score" (metadata item) with
  | Some score =>
      match num_of score with
      | Some x => num_ge x (num_of_float min_score)
      | None => false
      end
  | None => false
  end.

(** the score of a document is a number or null, or there is none *)
Definition score_typed (item : Document) : bool :=
  match Dict.get "score" (metadata item) with
  | Some PNone | None => true
  | Some score => match num_of score with Some _ => true | None => false end
  end.

Definition scored (score : pyval) : Document :=
  {| page_content := PStr "text"; metadata := [("type", PStr "TEXT"); ("score", score)] |}.

Definition retriever (min_score : option spec_float) : AmazonKnowledgeBasesRetriever :=
  {| knowledge_base_id := "kb-1"; retrieval_config := None;
     min_score_confidence := min_score |}.

(** a configuration with only [numberOfResults] set *)
Definition only_number_of_results (n : Z) : RetrievalConfig.t :=
  RetrievalConfig.Build (VectorSearchConfig.Build n None None []) None [].

(** a filter with its [in_] field alone *)
Definition in_filter (v : dict) : SearchFilter.t :=
  SearchFilter.Build None None None None None (Some v) None None None None None
    None None.

Definition raw_text_hi : dict :=
  [("content", PDict [("type", PStr "TEXT"); ("text", PStr "hi")]);
   ("score", PFloat float_0_7);
   ("metadata", PDict [("a", PInt 1)])].

Definition passthrough (k : string) : Prop :=
  k <> "content" /\ k <> "type" /\ k <> "score" /\ k <> "metadata"
  /\ k <> "source_metadata".

Definition get_or (k : string) (d : dict) (default : pyval) : pyval :=
  match Dict.get k d with Some v => v | None => default end.

(** the body extracted from a content mapping, branch by branch *)
Definition content_body (content : dict) : pyval :=
  let type := get_or "type" content PNone in
  if negb (truthy type) then get_or "text" content PNone
  else if eq_str type "TEXT" then get_or "text" content PNone
  else if eq_str type "IMAGE" then get_or "byteContent" content PNone
  else if eq_str type "ROW" then
    PStr (match Dict.get "row" content with
          | Some row => if truthy row then Json.dumps row else "[]"
          | None => "[]"
          end)
  else PNone.

Definition raw_row_null : pyval :=
  PDict [("content", PDict [("type", PStr "ROW"); ("row", PNone)])].

Definition raw_empty_tag : pyval :=
  PDict [("content", PDict [("type", PStr ""); ("text", PStr "hi")])].

Definition raw_audio : dict :=
  [("content", PDict [("type", PStr "AUDIO"); ("text", PStr "hi")])].

(** a type tag that is none of the three known ones *)
Definition unknown_tag (tag : pyval) : bool :=
  negb (eq_str tag "TEXT") && negb (eq_str tag "IMAGE") && negb (eq_str tag "ROW").


(** the metadata of the document decoded from [raw], whose content mapping
    is [content]: the record after each of its updates *)
Definition decoded_metadata (raw content : dict) : dict :=
  let typed := Dict.set "type" (get_or "type" content (PStr "TEXT")) raw in
  let popped := Dict.remove "content" typed in
  let scored :=
    if Dict.mem "score" popped then popped else Dict.set "score" (PInt 0) popped in
  match Dict.get "metadata" scored with
  | Some m => Dict.set "source_metadata" m (Dict.remove "metadata" scored)
  | None => scored
  end.


(** the metadata [raw_text_hi] decodes to, in the order the keys were set *)
Definition decoded_text_hi : dict :=
  [("score", PFloat float_0_7); ("type", PStr "TEXT");
   ("source_metadata", PDict [("a", PInt 1)])].


Definition scores_0_9_0_3_null_0_5 : list Document :=
  [scored (PFloat float_0_9); scored (PFloat float_0_3); scored PNone;
   scored (PFloat float_0_5)].

Definition raw_null_score : dict :=
  [("content", PDict [("text", PStr "hi")]); ("score", PNone)].


(** what [SearchFilter.nodes_with] makes of the value under the key *)
Definition node_field {A} (validate : pyval -> outcome A) (v : option pyval)
  : outcome (option (list A)) :=
  match v with
  | None | Some PNone => Ok None
  | Some (PList l) => cs <- SearchFilter.each_with validate l;; Ok (Some cs)
  | Some _ => Raise ValidationError
  end.

(** the dumped children of a node *)
Definition dump_nodes (c : option (list SearchFilter.t)) : option pyval :=
  match c with
  | Some l => Some (PList (map (fun x => PDict (SearchFilter.model_dump x)) l))
  | None => None
  end.

Definition all_nodes (P : SearchFilter.t -> Prop) (c : option (list SearchFilter.t))
  : Prop :=
  match c with
  | Some l => Forall P l
  | None => True
  end.

(** [numberOfResults] replaced in a built configuration *)
Definition with_number_of_results (n : Z) (c : VectorSearchConfig.t)
  : VectorSearchConfig.t :=
  VectorSearchConfig.Build n (VectorSearchConfig.filter c)
    (VectorSearchConfig.overrideSearchType c) (VectorSearchConfig.extra c).

(** induction on a filter tree, through the lists of children *)
Fixpoint SearchFilter_nested_ind (P : SearchFilter.t -> Prop)
    (step : forall a o eq gt ge i lt le lc ne ni sw sc,
        all_nodes P a -> all_nodes P o ->
        P (SearchFilter.Build a o eq gt ge i lt le lc ne ni sw sc))
    (f : SearchFilter.t) {struct f} : P f :=
  match f with
  | SearchFilter.Build a o eq gt ge i lt le lc ne ni sw sc =>
      let all (c : option (list SearchFilter.t)) : all_nodes P c :=
        match c return all_nodes P c with
        | Some l =>
            (fix each (l : list SearchFilter.t) : Forall P l :=
               match l with
               | [] => Forall_nil P
               | x :: l' =>
                   Forall_cons x (SearchFilter_nested_ind P step x) (each l')
               end) l
        | None => I
        end in
      step a o eq gt ge i lt le lc ne ni sw sc (all a) (all o)
  end.


Definition missing_content : exn :=
  ValueError "Invalid search result, content is missing from the result".

Definition is_mapping (v : pyval) : bool :=
  match v with PDict _ => true | _ => false end.

Definition raw_no_score : dict :=
  [("content", PDict [("text", PStr "hi")]); ("location", PStr "s3://bucket/key")].

Definition raw_image : dict :=
  [("content", PDict [("type", PStr "IMAGE"); ("byteContent", PStr "aGk=")])].


(** the keys a SearchFilter is read from: the field names, with the alias
    [in] beside the name [in_] *)
Definition SearchFilter_keys : list string :=
  ["andAll"; "orAll"; "equals"; "greaterThan"; "greaterThanOrEquals"; "in";
   "in_"; "lessThan"; "lessThanOrEquals"; "listContains"; "notEquals"; "notIn";
   "startsWith"; "stringContains"].

(** the names of the declared fields of a VectorSearchConfig *)
Definition VectorSearchConfig_fields : list string :=
  ["numberOfResults"; "filter"; "overrideSearchType"].

Definition raises {A} (o : outcome A) : Prop := exists e, o = Raise e.

Definition no_null (d : dict) : Prop := Forall (fun kv => snd kv <> PNone) d.

(** * Properties *)

(** ** Dictionaries *)

Lemma get_set_same k v d : Dict.get k (Dict.set k v d) = Some v.
Proof.
  induction d as [|[k' v'] d IH]; simpl.
  - now rewrite String.eqb_refl.
  - destruct (String.eqb k k') eqn:E; simpl; rewrite ?String.eqb_refl, ?E; auto.
Qed.

Lemma get_set_other k k' v d :
  k <> k' -> Dict.get k (Dict.set k' v d) = Dict.get k d.
Proof.
  intros N. apply String.eqb_neq in N.
  induction d as [|[k0 v0] d IH]; simpl.
  - now rewrite N.
  - destruct (String.eqb k' k0) eqn:E; simpl.
    + apply String.eqb_eq in E. subst k0. now rewrite N.
    + now rewrite IH.
Qed.

Lemma get_remove_same k d : Dict.get k (Dict.remove k d) = None.
Proof.
  induction d as [|[k' v'] d IH]; simpl; auto.
  destruct (String.eqb k k') eqn:E; simpl; rewrite ?E; auto.
Qed.

Lemma get_remove_other k k' d :
  k <> k' -> Dict.get k (Dict.remove k' d) = Dict.get k d.
Proof.
  intros N. apply String.eqb_neq in N.
  induction d as [|[k0 v0] d IH]; simpl; auto.
  destruct (String.eqb k' k0) eqn:E; simpl.
  - apply String.eqb_eq in E. subst k0. now rewrite N.
  - now rewrite IH.
Qed.

Lemma get_app k (d1 d2 : dict) :
  Dict.get k (d1 ++ d2)%list
  = match Dict.get k d1 with Some v => Some v | None => Dict.get k d2 end.
Proof.
  induction d1 as [|[k' v'] d1 IH]; simpl; auto.
  now destruct (String.eqb k k').
Qed.

Lemma get_field k name v :
  Dict.get k (field name v) = if String.eqb k name then v else None.
Proof.
  destruct v; simpl; now destruct (String.eqb k name).
Qed.

Lemma mem_get k d : Dict.mem k d = true <-> exists v, Dict.get k d = Some v.
Proof.
  unfold Dict.mem. destruct (Dict.get k d); split; eauto; try discriminate.
  intros [v H]. discriminate.
Qed.

(** ** Trimming *)

Lemma lstrip_split s :
  exists l, s = l ++ lstrip s /\ all_space l = true
            /\ starts_with_space (lstrip s) = false.
Proof.
  induction s as [|c s IH]; simpl.
  - exists "". auto.
  - destruct (isspace c) eqn:E.
    + destruct IH as (l & H1 & H2 & H3). exists (String c l). simpl.
      rewrite E, H2. repeat split; auto. now rewrite <- H1.
    + exists "". simpl. auto.
Qed.

Lemma rstrip_split s :
  exists r, s = rstrip s ++ r /\ all_space r = true
            /\ ends_with_space (rstrip s) = false.
Proof.
  induction s as [|c s IH]; simpl.
  - exists "". auto.
  - destruct IH as (r & H1 & H2 & H3).
    destruct (rstrip s) as [|c' s'] eqn:R.
    + destruct (isspace c) eqn:E.
      * exists (String c r). simpl in *. rewrite E, H2. subst s. auto.
      * exists r. simpl in *. subst s. auto.
    + exists r. simpl in *. rewrite <- H1. repeat split; auto.
Qed.

Lemma rstrip_keeps_head s :
  starts_with_space s = false -> starts_with_space (rstrip s) = false.
Proof.
  destruct s as [|c s]; simpl; auto. intros E.
  destruct (rstrip s); simpl; auto. now rewrite E.
Qed.

Lemma strip_split s :
  exists l r, s = l ++ strip s ++ r
              /\ all_space l = true /\ all_space r = true
              /\ starts_with_space (strip s) = false
              /\ ends_with_space (strip s) = false.
Proof.
  destruct (lstrip_split s) as (l & L1 & L2 & L3).
  destruct (rstrip_split (lstrip s)) as (r & R1 & R2 & R3).
  exists l, r. unfold strip. rewrite <- R1, <- L1.
  repeat split; auto. now apply rstrip_keeps_head.
Qed.

(** ** The serializer on a few values *)

Example float_repr_0_7 : Json.float_repr float_0_7 = "0.7".
Proof. reflexivity. Qed.

Example float_repr_exponent :
  Json.float_repr (S754_finite false 5902958103587057 (-69)) = "1e-05".
Proof. reflexivity. Qed.

Example dumps_row :
  Json.dumps (PList [PDict [("columnName", PStr "a"); ("columnValue", PInt (-12))];
                     PDict []; PNone; PBool true])
  = "[{" ++ Json.str_json "columnName" ++ ": " ++ Json.str_json "a" ++ ", "
         ++ Json.str_json "columnValue" ++ ": -12}, {}, null, true]".
Proof. reflexivity. Qed.

(** ** Building the request *)

(** C2. For every query, knowledge-base id and optional configuration the
    request holds [retrievalQuery.text], the query trimmed of leading and
    trailing white space, and [knowledgeBaseId], the given id; without a
    configuration it has these two keys and no [retrievalConfiguration]
    key; [build_request("  hello world  ", "kb-1", null)] is exactly
    [{retrievalQuery: {text: "hello world"}, knowledgeBaseId: "kb-1"}]. *)
Theorem get_retrieve_request_spec :
  forall (query kb : string) (config : option RetrievalConfig.t)
         (min_score : option spec_float),
    let self := {| knowledge_base_id := kb;
                   retrieval_config := option_map ConfigModel config;
                   min_score_confidence := min_score |} in
    (exists request,
        _get_retrieve_request self query = Ok request
        /\ Dict.get "retrievalQuery" request
           = Some (PDict [("text", PStr (strip query))])
        /\ Dict.get "knowledgeBaseId" request = Some (PStr kb)
        /\ Dict.get "retrievalConfiguration" request
           = option_map (fun c => PDict (RetrievalConfig.model_dump c)) config
        /\ match config with
           | None => request = [("retrievalQuery", PDict [("text", PStr (strip query))]);
                                ("knowledgeBaseId", PStr kb)]
           | Some _ => True
           end)
    /\ (exists l r, query = l ++ strip query ++ r
                    /\ all_space l = true /\ all_space r = true
                    /\ starts_with_space (strip query) = false
                    /\ ends_with_space (strip query) = false)
    /\ _get_retrieve_request (retriever min_score) "  hello world  "
       = Ok [("retrievalQuery", PDict [("text", PStr "hello world")]);
             ("knowledgeBaseId", PStr "kb-1")].
Proof.
  intros query kb config min_score self. split; [|split].
  - unfold _get_retrieve_request, self. simpl.
    destruct config as [c|]; simpl; eexists; repeat split; reflexivity.
  - apply strip_split.
  - reflexivity.
Qed.

(** ** Extracting the content *)

Lemma get_content_of_mapping (d content : dict) :
  Dict.get "content" d = Some (PDict content) -> content <> [] ->
  _get_content_from_result (PDict d) = Ok (content_body content).
Proof.
  intros Hc Hne. unfold _get_content_from_result, content_body, get_or.
  assert (Hd : truthy (PDict d) = true) by (destruct d; [discriminate | reflexivity]).
  assert (Ht : truthy (PDict content) = true) by (destruct content; [congruence | reflexivity]).
  rewrite Hd. cbn [negb py_get bind]. rewrite Hc, Ht. cbn [negb py_get bind].
  destruct (Dict.get "type" content) as [ty|] eqn:T; cbn [truthy negb].
  - destruct (truthy ty); cbn [negb]; [|reflexivity].
    cbn [py_getitem bind]. rewrite T. cbn [bind].
    destruct (eq_str ty "TEXT"); [reflexivity|].
    destruct (eq_str ty "IMAGE"); [reflexivity|].
    destruct (eq_str ty "ROW"); [|reflexivity].
    destruct (Dict.get "row" content) as [row|]; [|reflexivity].
    now destruct (truthy row).
  - reflexivity.
Qed.

Lemma get_content_not_mapping (result : pyval) :
  truthy result = true -> is_mapping result = false ->
  _get_content_from_result result = Raise AttributeError.
Proof.
  intros T M. unfold _get_content_from_result. rewrite T. cbn [negb].
  destruct result; try discriminate; reflexivity.
Qed.

Lemma get_content_missing (d : dict) :
  d <> [] ->
  match Dict.get "content" d with
  | Some c => truthy c = false
  | None => True
  end ->
  _get_content_from_result (PDict d) = Raise missing_content.
Proof.
  intros Hne H. unfold _get_content_from_result.
  destruct d; [congruence|]. cbn [truthy negb py_get bind].
  destruct (Dict.get "content" _) as [c|]; [rewrite H|]; reflexivity.
Qed.

Lemma get_content_content_not_mapping (d : dict) (c : pyval) :
  Dict.get "content" d = Some c -> truthy c = true -> is_mapping c = false ->
  _get_content_from_result (PDict d) = Raise AttributeError.
Proof.
  intros Hc T M. unfold _get_content_from_result.
  destruct d; [discriminate|]. cbn [truthy negb py_get bind].
  rewrite Hc, T. cbn [negb]. destruct c; try discriminate; reflexivity.
Qed.

(** C4, as stated, fails: a content field that is present and null is
    neither absent nor an empty mapping, and the invalid-result error is
    raised all the same. *)
Lemma content_null_is_invalid :
  _get_content_from_result (PDict [("content", PNone)]) = Raise missing_content
  /\ ~ (forall result,
           (exists msg, _get_content_from_result result = Raise (ValueError msg))
           <-> (result = PNone \/ result = PDict []
                \/ exists d, result = PDict d
                             /\ (Dict.get "content" d = None
                                 \/ Dict.get "content" d = Some (PDict [])))).
Proof.
  split; [reflexivity|]. intros H.
  destruct (proj1 (H (PDict [("content", PNone)]))) as [E | [E | (d & E & [G | G])]].
  - eexists. reflexivity.
  - discriminate E.
  - discriminate E.
  - injection E as <-. discriminate G.
  - injection E as <-. discriminate G.
Qed.

(** C4, amended. Extraction raises the invalid-result error ([ValueError])
    exactly when the raw result is falsy (absent or empty) or its content
    field is absent or falsy (null, an empty mapping, another empty or zero
    value); on a raw result whose content is a non-empty mapping it
    returns. *)
Theorem get_content_value_error (result : pyval) :
  ((exists msg, _get_content_from_result result = Raise (ValueError msg))
   <-> (truthy result = false
        \/ exists d, result = PDict d
                     /\ (Dict.get "content" d = None
                         \/ exists c, Dict.get "content" d = Some c
                                      /\ truthy c = false)))
  /\ (forall d content,
         result = PDict d -> Dict.get "content" d = Some (PDict content) ->
         content <> [] ->
         exists body, _get_content_from_result result = Ok body).
Proof.
  split.
  - split.
    + intros [msg H].
      destruct (truthy result) eqn:T; [|now left]. right.
      destruct (is_mapping result) eqn:M.
      2:{ rewrite (get_content_not_mapping result T M) in H. discriminate. }
      destruct result as [| | | | | |d]; try discriminate.
      exists d. split; [reflexivity|].
      destruct (Dict.get "content" d) as [c|] eqn:C; [|now left]. right.
      exists c. split; [reflexivity|].
      destruct (truthy c) eqn:Tc; [|reflexivity].
      destruct (is_mapping c) eqn:Mc.
      2:{ rewrite (get_content_content_not_mapping d c C Tc Mc) in H. discriminate. }
      destruct c as [| | | | | |content]; try discriminate.
      rewrite (get_content_of_mapping d content C) in H; [discriminate|].
      intros ->. discriminate.
    + assert (Falsy : forall r, truthy r = false ->
                exists msg, _get_content_from_result r = Raise (ValueError msg)).
      { intros r T. unfold _get_content_from_result. rewrite T. eexists. reflexivity. }
      intros [T | (d & -> & H)]; [now apply Falsy|].
      destruct d as [|kv d]; [now apply Falsy|].
      exists "Invalid search result, content is missing from the result".
      apply get_content_missing; [discriminate|].
      destruct H as [-> | (c & -> & Tc)]; auto.
  - intros d content -> Hc Hne. exists (content_body content).
    now apply get_content_of_mapping.
Qed.

Lemma get_content_value_error_witness :
  exists body,
    _get_content_from_result (PDict raw_audio) = Ok body.
Proof.
  apply (proj2 (get_content_value_error (PDict raw_audio)) raw_audio
           [("type", PStr "AUDIO"); ("text", PStr "hi")]);
    [reflexivity | reflexivity | discriminate].
Defined.

(** ** Decoding a result *)

Lemma result_to_document_ok (d content : dict) :
  Dict.get "content" d = Some (PDict content) -> content <> [] ->
  result_to_document (PDict d)
  = Ok {| page_content := content_body content;
          metadata := decoded_metadata d content |}.
Proof.
  intros Hc Hne. unfold result_to_document.
  rewrite (get_content_of_mapping d content Hc Hne). cbn [bind py_get].
  rewrite Hc. cbn [bind py_get]. unfold Dict.pop.
  rewrite get_set_other by discriminate. rewrite Hc. cbn [bind snd fst].
  unfold decoded_metadata, get_or.
  set (popped := Dict.remove "content" _).
  set (scored := if Dict.mem "score" popped then _ else _).
  replace (if negb (Dict.mem "score" popped) then Dict.set "score" (PInt 0) popped
           else popped) with scored
    by (subst scored; now destruct (Dict.mem "score" popped)).
  unfold Dict.mem. destruct (Dict.get "metadata" scored); reflexivity.
Qed.

Lemma documents_app (l1 l2 : list pyval) :
  _retrieval_results_to_documents (l1 ++ l2)%list
  = (docs1 <- _retrieval_results_to_documents l1;;
     docs2 <- _retrieval_results_to_documents l2;;
     Ok (docs1 ++ docs2)%list).
Proof.
  induction l1 as [|r l1 IH]; simpl.
  - now destruct (_retrieval_results_to_documents l2).
  - destruct (result_to_document r); simpl; auto.
    rewrite IH. destruct (_retrieval_results_to_documents l1); simpl; auto.
    now destruct (_retrieval_results_to_documents l2).
Qed.

Lemma decoded_type (d content : dict) :
  Dict.get "type" (decoded_metadata d content)
  = Some (get_or "type" content (PStr "TEXT")).
Proof.
  unfold decoded_metadata.
  set (popped := Dict.remove "content" _).
  assert (P : Dict.get "type" popped = Some (get_or "type" content (PStr "TEXT"))).
  { subst popped. rewrite get_remove_other by discriminate. apply get_set_same. }
  set (scored := if Dict.mem "score" popped then _ else _).
  assert (S : Dict.get "type" scored = Some (get_or "type" content (PStr "TEXT"))).
  { subst scored. destruct (Dict.mem "score" popped); auto.
    now rewrite get_set_other by discriminate. }
  destruct (Dict.get "metadata" scored); auto.
  rewrite get_set_other by discriminate. now rewrite get_remove_other by discriminate.
Qed.

Lemma decoded_score (d content : dict) :
  Dict.get "score" (decoded_metadata d content)
  = Some (get_or "score" d (PInt 0)).
Proof.
  unfold decoded_metadata.
  set (popped := Dict.remove "content" _).
  assert (P : Dict.get "score" popped = Dict.get "score" d).
  { subst popped. rewrite get_remove_other by discriminate.
    now rewrite get_set_other by discriminate. }
  set (scored := if Dict.mem "score" popped then _ else _).
  assert (S : Dict.get "score" scored = Some (get_or "score" d (PInt 0))).
  { subst scored. unfold Dict.mem, get_or. rewrite P.
    destruct (Dict.get "score" d); [now rewrite P | apply get_set_same]. }
  destruct (Dict.get "metadata" scored); auto.
  rewrite get_set_other by discriminate. now rewrite get_remove_other by discriminate.
Qed.

Lemma decoded_scored_other (d content : dict) (k : string) :
  k <> "content" -> k <> "type" -> k <> "score" ->
  let popped :=
    Dict.remove "content" (Dict.set "type" (get_or "type" content (PStr "TEXT")) d) in
  Dict.get k (if Dict.mem "score" popped then popped
              else Dict.set "score" (PInt 0) popped)
  = Dict.get k d.
Proof.
  intros N1 N2 N3 popped.
  assert (P : Dict.get k popped = Dict.get k d).
  { subst popped. rewrite get_remove_other by assumption.
    now rewrite get_set_other by assumption. }
  destruct (Dict.mem "score" popped); auto.
  now rewrite get_set_other by assumption.
Qed.

Lemma decoded_metadata_key (d content : dict) :
  Dict.get "metadata" (decoded_metadata d content) = None
  /\ Dict.get "source_metadata" (decoded_metadata d content)
     = match Dict.get "metadata" d with
       | Some m => Some m
       | None => Dict.get "source_metadata" d
       end.
Proof.
  pose proof (decoded_scored_other d content "metadata") as M.
  pose proof (decoded_scored_other d content "source_metadata") as SM.
  cbv zeta in M, SM. unfold decoded_metadata.
  rewrite M by discriminate.
  destruct (Dict.get "metadata" d) as [m|] eqn:E.
  - split.
    + rewrite get_set_other by discriminate. apply get_remove_same.
    + apply get_set_same.
  - split.
    + now rewrite M by discriminate.
    + now rewrite SM by discriminate.
Qed.

Lemma decoded_content (d content : dict) :
  Dict.get "content" (decoded_metadata d content) = None.
Proof.
  unfold decoded_metadata.
  set (popped := Dict.remove "content" _).
  assert (P : Dict.get "content" popped = None) by apply get_remove_same.
  set (scored := if Dict.mem "score" popped then _ else _).
  assert (S : Dict.get "content" scored = None).
  { subst scored. destruct (Dict.mem "score" popped); auto.
    now rewrite get_set_other by discriminate. }
  destruct (Dict.get "metadata" scored); auto.
  rewrite get_set_other by discriminate. now rewrite get_remove_other by discriminate.
Qed.

Lemma decoded_passthrough (d content : dict) (k : string) :
  passthrough k ->
  Dict.get k (decoded_metadata d content) = Dict.get k d.
Proof.
  intros (N1 & N2 & N3 & N4 & N5).
  pose proof (decoded_scored_other d content k N1 N2 N3) as K.
  cbv zeta in K. unfold decoded_metadata.
  destruct (Dict.get "metadata" _); auto.
  rewrite get_set_other by assumption. now rewrite get_remove_other by assumption.
Qed.

(** C1. A raw result whose content mapping is not empty decodes to a
    Document whose metadata has [type], the type tag of the content (["TEXT"]
    when the content has none), [score], the raw score (0 when the key is
    absent), the raw [metadata] under [source_metadata] with the key
    [metadata] gone, every other field as it was, and no [content] key;
    [{content: {type: "TEXT", text: "hi"}, score: 0.7, metadata: {a: 1}}]
    decodes to body ["hi"] and metadata
    [{type: "TEXT", score: 0.7, source_metadata: {a: 1}}]. *)
Theorem results_to_documents_metadata (raw content : dict) :
  Dict.get "content" raw = Some (PDict content) -> content <> [] ->
  (exists doc,
      _retrieval_results_to_documents [PDict raw] = Ok [doc]
      /\ _get_content_from_result (PDict raw) = Ok (page_content doc)
      /\ Dict.get "type" (metadata doc)
         = Some (match Dict.get "type" content with
                 | Some tag => tag
                 | None => PStr "TEXT"
                 end)
      /\ Dict.get "score" (metadata doc)
         = Some (match Dict.get "score" raw with
                 | Some score => score
                 | None => PInt 0
                 end)
      /\ Dict.get "metadata" (metadata doc) = None
      /\ Dict.get "source_metadata" (metadata doc)
         = match Dict.get "metadata" raw with
           | Some m => Some m
           | None => Dict.get "source_metadata" raw
           end
      /\ Dict.get "content" (metadata doc) = None
      /\ forall k, passthrough k -> Dict.get k (metadata doc) = Dict.get k raw)
  /\ _retrieval_results_to_documents [PDict raw_text_hi]
     = Ok [{| page_content := PStr "hi"; metadata := decoded_text_hi |}]
  /\ Dict.same_mapping decoded_text_hi
       [("type", PStr "TEXT"); ("score", PFloat float_0_7);
        ("source_metadata", PDict [("a", PInt 1)])].
Proof.
  intros Hc Hne. split.
  - exists {| page_content := content_body content;
              metadata := decoded_metadata raw content |}.
    cbn [_retrieval_results_to_documents page_content metadata].
    rewrite (result_to_document_ok raw content Hc Hne).
    rewrite (get_content_of_mapping raw content Hc Hne).
    repeat split.
    + apply decoded_type.
    + apply decoded_score.
    + apply decoded_metadata_key.
    + apply decoded_metadata_key.
    + apply decoded_content.
    + intros k. apply decoded_passthrough.
  - split; [reflexivity|].
    intros k. simpl.
    destruct (String.eqb k "score") eqn:E1; destruct (String.eqb k "type") eqn:E2;
      auto.
    apply String.eqb_eq in E1, E2. congruence.
Qed.

Lemma results_to_documents_metadata_witness :
  exists doc,
    _retrieval_results_to_documents [PDict raw_text_hi] = Ok [doc]
    /\ Dict.get "source_metadata" (metadata doc) = Some (PDict [("a", PInt 1)]).
Proof.
  destruct (results_to_documents_metadata raw_text_hi
              [("type", PStr "TEXT"); ("text", PStr "hi")])
    as [(doc & H1 & _ & _ & _ & _ & H6 & _) _].
  - reflexivity.
  - discriminate.
  - exists doc. split; [exact H1 | exact H6].
Defined.

(** ** Content of an unknown type *)

(** C5, as stated, fails: a type tag that is the empty string is none of
    ["TEXT"], ["IMAGE"], ["ROW"], yet the text is returned, not null. *)
Lemma unknown_type_empty_tag :
  _get_content_from_result raw_empty_tag = Ok (PStr "hi")
  /\ ~ (forall (raw content : dict) (tag : string),
           Dict.get "content" raw = Some (PDict content) ->
           Dict.get "type" content = Some (PStr tag) ->
           tag <> "TEXT" -> tag <> "IMAGE" -> tag <> "ROW" ->
           _get_content_from_result (PDict raw) = Ok PNone).
Proof.
  split; [reflexivity|]. intros H.
  specialize (H [("content", PDict [("type", PStr ""); ("text", PStr "hi")])]
                [("type", PStr ""); ("text", PStr "hi")] ""
                eq_refl eq_refl).
  assert (C : Ok (PStr "hi") = Ok PNone) by (apply H; discriminate).
  discriminate C.
Qed.

(** C5, amended. A raw result whose content has a non-empty type tag other
    than ["TEXT"], ["IMAGE"] and ["ROW"] (["AUDIO"], say) has a null body, and
    extracting it does not raise; a type tag that is empty or null is
    treated like a missing one: the body is the [text] field. *)
Theorem unknown_type_is_null (raw content : dict) :
  Dict.get "content" raw = Some (PDict content) -> content <> [] ->
  (forall tag, Dict.get "type" content = Some tag ->
               truthy tag = true -> unknown_tag tag = true ->
               _get_content_from_result (PDict raw) = Ok PNone)
  /\ (forall tag, Dict.get "type" content = Some tag -> truthy tag = false ->
                  _get_content_from_result (PDict raw)
                  = Ok (get_or "text" content PNone))
  /\ (Dict.get "type" content = None ->
      _get_content_from_result (PDict raw) = Ok (get_or "text" content PNone)).
Proof.
  intros Hc Hne. rewrite (get_content_of_mapping raw content Hc Hne).
  unfold content_body. split; [|split].
  - intros tag Ht Htruthy Hu.
    assert (G : get_or "type" content PNone = tag)
      by (unfold get_or; now rewrite Ht).
    rewrite G, Htruthy. cbn [negb]. unfold unknown_tag in Hu.
    destruct (eq_str tag "TEXT"); [discriminate|].
    destruct (eq_str tag "IMAGE"); [discriminate|].
    destruct (eq_str tag "ROW"); [discriminate|]. reflexivity.
  - intros tag Ht Hfalsy.
    assert (G : get_or "type" content PNone = tag)
      by (unfold get_or; now rewrite Ht).
    now rewrite G, Hfalsy.
  - intros Ht.
    assert (G : get_or "type" content PNone = PNone)
      by (unfold get_or; now rewrite Ht).
    now rewrite G.
Qed.

Lemma unknown_type_is_null_witness :
  _get_content_from_result (PDict raw_audio) = Ok PNone.
Proof.
  destruct (unknown_type_is_null raw_audio
              [("type", PStr "AUDIO"); ("text", PStr "hi")]) as [H _].
  - reflexivity.
  - discriminate.
  - apply (H (PStr "AUDIO")); reflexivity.
Defined.

(** ** Tabular content *)

(** C6, as stated, fails: a [row] field that is present and null is
    serialized as ["[]"], which is not the JSON form of the field. *)
Lemma row_null_not_its_json :
  _get_content_from_result raw_row_null = Ok (PStr "[]")
  /\ Json.dumps PNone = "null"
  /\ ~ (forall (raw content : dict) (row : pyval),
           Dict.get "content" raw = Some (PDict content) ->
           Dict.get "type" content = Some (PStr "ROW") ->
           Dict.get "row" content = Some row ->
           _get_content_from_result (PDict raw) = Ok (PStr (Json.dumps row))).
Proof.
  split; [reflexivity|]. split; [reflexivity|]. intros H.
  specialize (H [("content", PDict [("type", PStr "ROW"); ("row", PNone)])]
                [("type", PStr "ROW"); ("row", PNone)] PNone
                eq_refl eq_refl eq_refl).
  discriminate H.
Qed.

(** C6, amended. For content of type ["ROW"] the body is the JSON text of the
    [row] field when the field is there and not empty, and ["[]"] when it is
    absent, null or empty; with [row] absent, null or a sequence the body is
    the JSON text of a sequence. *)
Theorem row_is_json (raw content : dict) :
  Dict.get "content" raw = Some (PDict content) ->
  Dict.get "type" content = Some (PStr "ROW") ->
  (Dict.get "row" content = None ->
   _get_content_from_result (PDict raw) = Ok (PStr "[]"))
  /\ (forall row, Dict.get "row" content = Some row -> truthy row = true ->
                  _get_content_from_result (PDict raw) = Ok (PStr (Json.dumps row)))
  /\ (forall row, Dict.get "row" content = Some row -> truthy row = false ->
                  _get_content_from_result (PDict raw) = Ok (PStr "[]"))
  /\ ((Dict.get "row" content = None \/ Dict.get "row" content = Some PNone
       \/ exists l, Dict.get "row" content = Some (PList l)) ->
      exists l, _get_content_from_result (PDict raw)
                = Ok (PStr (Json.dumps (PList l)))).
Proof.
  intros Hc Ht.
  assert (Hne : content <> []) by (intros ->; discriminate).
  rewrite (get_content_of_mapping raw content Hc Hne).
  unfold content_body, get_or. rewrite Ht. cbn.
  repeat split.
  - now intros ->.
  - intros row -> ->. reflexivity.
  - intros row -> ->. reflexivity.
  - intros [-> | [-> | [l ->]]].
    + now exists [].
    + now exists [].
    + destruct l as [|x l]; [now exists [] | now exists (x :: l)].
Qed.

Lemma row_is_json_witness :
  _get_content_from_result
    (PDict [("content", PDict [("type", PStr "ROW")])]) = Ok (PStr "[]").
Proof.
  apply (row_is_json [("content", PDict [("type", PStr "ROW")])]
           [("type", PStr "ROW")]); reflexivity.
Defined.

(** ** Filtering by score *)

Lemma score_passes_typed (min_score : spec_float) (item : Document) :
  score_typed item = true ->
  score_passes min_score item = Ok (score_at_least min_score item).
Proof.
  unfold score_typed, score_passes, score_at_least, py_ge_float. cbn [py_get bind].
  destruct (Dict.get "score" (metadata item)) as [v|]; [|reflexivity].
  destruct v; cbn; try reflexivity; discriminate.
Qed.

Lemma score_passes_untyped (min_score : spec_float) (item : Document) :
  score_typed item = false -> score_passes min_score item = Raise TypeError.
Proof.
  unfold score_typed, score_passes, py_ge_float. cbn [py_get bind].
  destruct (Dict.get "score" (metadata item)) as [v|]; [|discriminate].
  destruct v; cbn; try reflexivity; discriminate.
Qed.

(** the comprehension, whatever the documents hold *)
Lemma keep_passing_filter (min_score : spec_float) (docs : list Document) :
  keep_passing min_score docs
  = if forallb score_typed docs
    then Ok (List.filter (score_at_least min_score) docs)
    else Raise TypeError.
Proof.
  induction docs as [|item docs IH]; [reflexivity|].
  cbn [keep_passing forallb List.filter].
  destruct (score_typed item) eqn:T.
  - rewrite (score_passes_typed _ _ T). cbn [bind andb]. rewrite IH.
    destruct (forallb score_typed docs); reflexivity.
  - now rewrite (score_passes_untyped _ _ T).
Qed.

Lemma keep_passing_skip (min_score : spec_float) (doc : Document) before after :
  score_passes min_score doc = Ok false ->
  keep_passing min_score (before ++ doc :: after)%list
  = keep_passing min_score (before ++ after)%list.
Proof.
  intros H. induction before as [|item before IH]; cbn [app keep_passing].
  - rewrite H. cbn [bind]. now destruct (keep_passing min_score after).
  - now rewrite IH.
Qed.

Lemma positive_not_zero (f : spec_float) :
  float_positive f = true -> float_is_zero f = false.
Proof. destruct f; auto; discriminate. Qed.

(** C8. Without a threshold, or with threshold zero, the documents come back
    as they were; otherwise exactly those whose metadata [score] is present,
    not null, and at least the threshold, in their order and unchanged; at
    threshold 0.5 the scores [0.9, 0.3, null, 0.5] leave 0.9 and 0.5. *)
Theorem filter_by_score_confidence_spec
    (self : AmazonKnowledgeBasesRetriever) (docs : list Document) :
  (min_score_confidence self = None ->
   _filter_by_score_confidence self docs = Ok docs)
  /\ (forall s, min_score_confidence self = Some (S754_zero s) ->
                _filter_by_score_confidence self docs = Ok docs)
  /\ (forall min_score,
         min_score_confidence self = Some min_score ->
         float_is_zero min_score = false ->
         forallb score_typed docs = true ->
         _filter_by_score_confidence self docs
         = Ok (List.filter (score_at_least min_score) docs))
  /\ _filter_by_score_confidence (retriever (Some float_0_5))
       scores_0_9_0_3_null_0_5
     = Ok [scored (PFloat float_0_9); scored (PFloat float_0_5)].
Proof.
  unfold _filter_by_score_confidence. repeat split.
  - now intros ->.
  - now intros s ->.
  - intros min_score -> Z T. cbn [truthy]. rewrite Z. cbn [negb].
    rewrite keep_passing_filter. now rewrite T.
Qed.

Lemma filter_by_score_confidence_spec_witness :
  _filter_by_score_confidence (retriever (Some float_0_5)) scores_0_9_0_3_null_0_5
  = Ok (List.filter (score_at_least float_0_5) scores_0_9_0_3_null_0_5).
Proof.
  apply (filter_by_score_confidence_spec (retriever (Some float_0_5))
           scores_0_9_0_3_null_0_5); reflexivity.
Defined.

(** C10. A raw result that has a [score] key holding null decodes to a
    Document whose metadata [score] is null (0 is the default of an absent
    key only), and a positive threshold filters that document out. *)
Theorem null_score_is_kept_null (raw content : dict) :
  Dict.get "score" raw = Some PNone ->
  Dict.get "content" raw = Some (PDict content) -> content <> [] ->
  exists doc,
    _retrieval_results_to_documents [PDict raw] = Ok [doc]
    /\ Dict.get "score" (metadata doc) = Some PNone
    /\ forall self min_score before after,
        min_score_confidence self = Some min_score ->
        float_positive min_score = true ->
        _filter_by_score_confidence self [doc] = Ok []
        /\ _filter_by_score_confidence self (before ++ doc :: after)%list
           = _filter_by_score_confidence self (before ++ after)%list.
Proof.
  intros Hs Hc Hne.
  exists {| page_content := content_body content;
            metadata := decoded_metadata raw content |}.
  cbn [_retrieval_results_to_documents].
  rewrite (result_to_document_ok raw content Hc Hne). cbn [bind metadata].
  assert (S : Dict.get "score" (decoded_metadata raw content) = Some PNone).
  { rewrite decoded_score. unfold get_or. now rewrite Hs. }
  split; [reflexivity|]. split; [exact S|].
  intros self min_score before after Hmin Hpos.
  assert (Skip : score_passes min_score
                   {| page_content := content_body content;
                      metadata := decoded_metadata raw content |} = Ok false).
  { unfold score_passes. cbn [py_get metadata bind]. now rewrite S. }
  unfold _filter_by_score_confidence. rewrite Hmin. cbn [truthy].
  rewrite (positive_not_zero _ Hpos). cbn [negb]. split.
  - cbn [keep_passing]. now rewrite Skip.
  - now apply keep_passing_skip.
Qed.

Lemma null_score_is_kept_null_witness :
  exists doc,
    _retrieval_results_to_documents [PDict raw_null_score] = Ok [doc]
    /\ Dict.get "score" (metadata doc) = Some PNone
    /\ _filter_by_score_confidence (retriever (Some float_0_5)) [doc] = Ok [].
Proof.
  destruct (null_score_is_kept_null raw_null_score [("text", PStr "hi")])
    as (doc & H1 & H2 & H3).
  - reflexivity.
  - reflexivity.
  - discriminate.
  - exists doc. split; [exact H1|]. split; [exact H2|].
    apply (H3 (retriever (Some float_0_5)) float_0_5 [] []); reflexivity.
Defined.

(** ** The configuration models on the wire *)

Lemma nodes_with_get {A} (validate : pyval -> outcome A) (k : string) (d : dict) :
  SearchFilter.nodes_with validate k d = node_field validate (Dict.get k d).
Proof.
  induction d as [|[k' x] d IH]; simpl; auto.
  destruct (String.eqb k k'); auto.
Qed.

Ltac dumped_key :=
  cbn [SearchFilter.model_dump]; rewrite !get_app, !get_field;
  cbn [String.eqb Ascii.eqb Bool.eqb];
  repeat match goal with
         | |- context [SearchFilter.leaf ?v] => destruct v; cbn [SearchFilter.leaf]
         | |- context [match ?c with Some _ => _ | None => _ end] =>
             is_var c; destruct c
         end; reflexivity.

Lemma dumped_children (f : SearchFilter.t) :
  Dict.get "andAll" (SearchFilter.model_dump f) = dump_nodes (SearchFilter.andAll f)
  /\ Dict.get "orAll" (SearchFilter.model_dump f) = dump_nodes (SearchFilter.orAll f).
Proof.
  destruct f as [a o eq gt ge i lt le lc ne ni sw sc].
  cbn [SearchFilter.andAll SearchFilter.orAll]. unfold dump_nodes.
  split.
  - destruct a; cbn [SearchFilter.model_dump field app Dict.get String.eqb Ascii.eqb Bool.eqb];
      [reflexivity|]. destruct o; dumped_key.
  - destruct a, o; dumped_key.
Qed.

Lemma dumped_leaves (f : SearchFilter.t) :
  let d := SearchFilter.model_dump f in
  Dict.get "equals" d = SearchFilter.leaf (SearchFilter.equals f)
  /\ Dict.get "greaterThan" d = SearchFilter.leaf (SearchFilter.greaterThan f)
  /\ Dict.get "greaterThanOrEquals" d
     = SearchFilter.leaf (SearchFilter.greaterThanOrEquals f)
  /\ Dict.get "in" d = SearchFilter.leaf (SearchFilter.in_ f)
  /\ Dict.get "lessThan" d = SearchFilter.leaf (SearchFilter.lessThan f)
  /\ Dict.get "lessThanOrEquals" d
     = SearchFilter.leaf (SearchFilter.lessThanOrEquals f)
  /\ Dict.get "listContains" d = SearchFilter.leaf (SearchFilter.listContains f)
  /\ Dict.get "notEquals" d = SearchFilter.leaf (SearchFilter.notEquals f)
  /\ Dict.get "notIn" d = SearchFilter.leaf (SearchFilter.notIn f)
  /\ Dict.get "startsWith" d = SearchFilter.leaf (SearchFilter.startsWith f)
  /\ Dict.get "stringContains" d
     = SearchFilter.leaf (SearchFilter.stringContains f).
Proof.
  destruct f as [a o eq gt ge i lt le lc ne ni sw sc].
  cbn [SearchFilter.equals SearchFilter.greaterThan SearchFilter.greaterThanOrEquals
       SearchFilter.in_ SearchFilter.lessThan SearchFilter.lessThanOrEquals
       SearchFilter.listContains SearchFilter.notEquals SearchFilter.notIn
       SearchFilter.startsWith SearchFilter.stringContains].
  cbv zeta. repeat split; dumped_key.
Qed.

(** no key of a dumped filter is the internal name [in_] *)
Lemma dumped_no_internal_name (f : SearchFilter.t) :
  Dict.get "in_" (SearchFilter.model_dump f) = None.
Proof.
  destruct f as [a o eq gt ge i lt le lc ne ni sw sc]. dumped_key.
Qed.

Lemma filter_field_leaf (v : option dict) :
  SearchFilter.filter_field (SearchFilter.leaf v) = Ok v.
Proof. now destruct v. Qed.

Lemma each_with_dumped (l : list SearchFilter.t) :
  Forall (fun f => SearchFilter.model_validate (PDict (SearchFilter.model_dump f))
                   = Ok f) l ->
  SearchFilter.each_with SearchFilter.model_validate
    (map (fun x => PDict (SearchFilter.model_dump x)) l) = Ok l.
Proof.
  induction 1 as [|f l Hf Hl IH]; [reflexivity|].
  cbn [map SearchFilter.each_with]. rewrite Hf. cbn [bind].
  fold (SearchFilter.each_with SearchFilter.model_validate
          (map (fun x => PDict (SearchFilter.model_dump x)) l)).
  now rewrite IH.
Qed.

Lemma node_field_dumped (c : option (list SearchFilter.t)) :
  all_nodes (fun f => SearchFilter.model_validate (PDict (SearchFilter.model_dump f))
                      = Ok f) c ->
  node_field SearchFilter.model_validate (dump_nodes c) = Ok c.
Proof.
  destruct c as [l|]; [|reflexivity]. cbn [all_nodes dump_nodes node_field].
  intros H. now rewrite (each_with_dumped l H).
Qed.

(** a filter is built back from what it is dumped to *)
Lemma validate_dumped (f : SearchFilter.t) :
  SearchFilter.model_validate (PDict (SearchFilter.model_dump f)) = Ok f.
Proof.
  induction f as [a o eq gt ge i lt le lc ne ni sw sc Ha Ho]
    using SearchFilter_nested_ind.
  set (f := SearchFilter.Build a o eq gt ge i lt le lc ne ni sw sc).
  destruct (dumped_children f) as [Ca Co].
  destruct (dumped_leaves f) as (L1 & L2 & L3 & L4 & L5 & L6 & L7 & L8 & L9 & L10 & L11).
  pose proof (dumped_no_internal_name f) as Lin.
  cbn [SearchFilter.model_validate]. rewrite !nodes_with_get.
  unfold SearchFilter.by_alias_or_name.
  rewrite Ca, Co, L1, L2, L3, L4, L5, L6, L7, L8, L9, L10, L11.
  subst f.
  cbn [SearchFilter.andAll SearchFilter.orAll SearchFilter.equals
       SearchFilter.greaterThan SearchFilter.greaterThanOrEquals
       SearchFilter.in_ SearchFilter.lessThan SearchFilter.lessThanOrEquals
       SearchFilter.listContains SearchFilter.notEquals SearchFilter.notIn
       SearchFilter.startsWith SearchFilter.stringContains].
  rewrite (node_field_dumped a Ha), (node_field_dumped o Ho). cbn [bind].
  replace (match SearchFilter.leaf i with
           | Some v => Some v
           | None => Dict.get "in_" _
           end) with (SearchFilter.leaf i)
    by (destruct i; cbn [SearchFilter.leaf]; [reflexivity | now rewrite Lin]).
  rewrite !filter_field_leaf. reflexivity.
Qed.

(** C3. A RetrievalConfig in which only
    [vectorSearchConfiguration.numberOfResults] is set is serialized without
    the keys [filter], [overrideSearchType] and [nextToken]; a filter that is
    serialized has its two aliased fields under ["in"] and ["notIn"]. *)
Theorem model_dump_omits_unset (n : Z) :
  let wire := RetrievalConfig.model_dump (only_number_of_results n) in
  let inner := VectorSearchConfig.model_dump (VectorSearchConfig.Build n None None []) in
  wire = [("vectorSearchConfiguration", PDict inner)]
  /\ inner = [("numberOfResults", PInt n)]
  /\ Dict.mem "filter" inner = false
  /\ Dict.mem "overrideSearchType" inner = false
  /\ Dict.mem "nextToken" wire = false
  /\ (forall kb min_score query,
         exists request,
           _get_retrieve_request
             {| knowledge_base_id := kb;
                retrieval_config := Some (ConfigModel (only_number_of_results n));
                min_score_confidence := min_score |} query = Ok request
           /\ Dict.get "retrievalConfiguration" request = Some (PDict wire))
  /\ (forall (f : SearchFilter.t) s extra,
         let dumped :=
           VectorSearchConfig.model_dump (VectorSearchConfig.Build n (Some f) s extra) in
         Dict.get "filter" dumped = Some (PDict (SearchFilter.model_dump f))
         /\ Dict.get "in" (SearchFilter.model_dump f)
            = SearchFilter.leaf (SearchFilter.in_ f)
         /\ Dict.get "notIn" (SearchFilter.model_dump f)
            = SearchFilter.leaf (SearchFilter.notIn f)
         /\ Dict.get "in_" (SearchFilter.model_dump f) = None).
Proof.
  cbv zeta. repeat split; try reflexivity.
  - intros kb min_score query. eexists. split; reflexivity.
  - apply (dumped_leaves f).
  - apply (dumped_leaves f).
  - apply dumped_no_internal_name.
Qed.

(** C7. A SearchFilter built from a mapping with the key ["in"] holds the
    value in its field [in_], is serialized with the key ["in"] again, and is
    built back from that serialization; every serialized filter has the
    aliases ["in"] and ["notIn"] for keys, never an internal name, and is
    built back from its serialization. *)
Theorem search_filter_alias_round_trip (v : dict) :
  SearchFilter.model_validate (PDict [("in", PDict v)]) = Ok (in_filter v)
  /\ SearchFilter.in_ (in_filter v) = Some v
  /\ SearchFilter.model_dump (in_filter v) = [("in", PDict v)]
  /\ SearchFilter.model_validate (PDict (SearchFilter.model_dump (in_filter v)))
     = Ok (in_filter v)
  /\ SearchFilter.model_validate (PDict [("in_", PDict v)]) = Ok (in_filter v)
  /\ forall f : SearchFilter.t,
      SearchFilter.model_validate (PDict (SearchFilter.model_dump f)) = Ok f
      /\ Dict.get "in" (SearchFilter.model_dump f)
         = SearchFilter.leaf (SearchFilter.in_ f)
      /\ Dict.get "notIn" (SearchFilter.model_dump f)
         = SearchFilter.leaf (SearchFilter.notIn f)
      /\ Dict.get "in_" (SearchFilter.model_dump f) = None.
Proof.
  repeat split; try reflexivity.
  - apply validate_dumped.
  - apply (dumped_leaves f).
  - apply (dumped_leaves f).
  - apply dumped_no_internal_name.
Qed.

(** C9, as stated, fails: a VectorSearchConfig is built with
    [numberOfResults] 0, and with -1. *)
Lemma number_of_results_zero_accepted :
  VectorSearchConfig.new (Some 0) None None []
  = Ok (VectorSearchConfig.Build 0 None None [])
  /\ VectorSearchConfig.new (Some (-1)) None None []
     = Ok (VectorSearchConfig.Build (-1) None None [])
  /\ ~ (forall n, n <= 0 ->
                  exists e, VectorSearchConfig.new (Some n) None None [] = Raise e).
Proof.
  split; [reflexivity|]. split; [reflexivity|]. intros H.
  destruct (H 0 (Z.le_refl 0)) as [e He]. discriminate He.
Qed.

(** C9, amended. [numberOfResults] is an integer with default 4: a
    VectorSearchConfig is built with the integer it is given, whatever its
    sign, the value plays no part in whether construction fails, and
    leaving the field out gives 4. *)
Theorem number_of_results_any_integer (n : Z) (filter overrideSearchType : option pyval)
    (kwargs : dict) :
  VectorSearchConfig.new (Some n) filter overrideSearchType kwargs
  = match VectorSearchConfig.new None filter overrideSearchType kwargs with
    | Ok c => Ok (with_number_of_results n c)
    | Raise e => Raise e
    end
  /\ VectorSearchConfig.new (Some n) None None []
     = Ok (VectorSearchConfig.Build n None None [])
  /\ VectorSearchConfig.new None None None []
     = Ok (VectorSearchConfig.Build 4 None None []).
Proof.
  repeat split. unfold VectorSearchConfig.new.
  destruct (VectorSearchConfig.filter_field filter); cbn [bind]; [|reflexivity].
  destruct (VectorSearchConfig.search_type_field overrideSearchType); reflexivity.
Qed.

Remark dict_config_has_no_model_dump (kb query : string) (d : dict) :
  d <> [] ->
  _get_retrieve_request
    {| knowledge_base_id := kb; retrieval_config := Some (ConfigDict d);
       min_score_confidence := None |} query = Raise AttributeError.
Proof.
  intros H. unfold _get_retrieve_request. cbn. destruct d; congruence.
Qed.

(** * Further properties of the decoder *)

(** X1. The documents come one per result and in the order of the results:
    the call returns exactly when every result decodes, each document being
    the decoding of the result at its position. *)
Theorem documents_pointwise (results : list pyval) (docs : list Document) :
  _retrieval_results_to_documents results = Ok docs
  <-> Forall2 (fun r d => result_to_document r = Ok d) results docs.
Proof.
  revert docs. induction results as [|r results IH]; intros docs;
    cbn [_retrieval_results_to_documents].
  - split.
    + intros [= <-]. constructor.
    + intros H. inversion H. reflexivity.
  - split.
    + destruct (result_to_document r) as [d|e] eqn:R; cbn [bind]; [|discriminate].
      destruct (_retrieval_results_to_documents results) as [ds|e] eqn:Rs;
        cbn [bind]; [|discriminate].
      intros [= <-]. constructor; [exact R | now apply IH].
    + intros H. inversion H as [|r' d rs ds Hd Hds]; subst.
      rewrite Hd. cbn [bind]. apply IH in Hds. now rewrite Hds.
Qed.

Lemma documents_pointwise_witness :
  Forall2 (fun r d => result_to_document r = Ok d) [PDict raw_text_hi]
    [{| page_content := PStr "hi"; metadata := decoded_text_hi |}].
Proof.
  apply (proj1 (documents_pointwise [PDict raw_text_hi]
                  [{| page_content := PStr "hi"; metadata := decoded_text_hi |}])).
  reflexivity.
Defined.

(** X2. Decoding fails fast: the first result that cannot be decoded decides
    the outcome of the whole call, whatever comes after it; the documents of
    the results before it are not returned. *)
Theorem documents_fail_fast (before after : list pyval) (bad : pyval)
    (docs : list Document) (e : exn) :
  _retrieval_results_to_documents before = Ok docs ->
  result_to_document bad = Raise e ->
  _retrieval_results_to_documents (before ++ bad :: after)%list = Raise e.
Proof.
  intros Hb He. rewrite documents_app, Hb. cbn [bind _retrieval_results_to_documents].
  now rewrite He.
Qed.

Lemma documents_fail_fast_witness :
  _retrieval_results_to_documents
    ([PDict raw_text_hi] ++ PDict [] :: [PDict raw_text_hi])%list
  = Raise (ValueError "Invalid search result").
Proof.
  apply (documents_fail_fast [PDict raw_text_hi] [PDict raw_text_hi] (PDict [])
           [{| page_content := PStr "hi"; metadata := decoded_text_hi |}]);
    reflexivity.
Defined.

(** X3. When the content of a result is extracted, the result is a mapping
    whose content is a non-empty mapping, and the body is the one of that
    content; so the statements that follow the extraction find their key:
    [result.pop("content")] raises no [KeyError], whatever was stored under
    [type] before it, and leaves no [content] key. *)
Theorem extracted_has_content (result body : pyval) :
  _get_content_from_result result = Ok body ->
  exists d content,
    result = PDict d
    /\ Dict.get "content" d = Some (PDict content) /\ content <> []
    /\ body = content_body content
    /\ forall type,
        exists rest,
          Dict.pop "content" (Dict.set "type" type d) = Ok (PDict content, rest)
          /\ Dict.get "content" rest = None.
Proof.
  intros H.
  destruct (truthy result) eqn:T.
  2:{ unfold _get_content_from_result in H. rewrite T in H. discriminate. }
  destruct (is_mapping result) eqn:M.
  2:{ rewrite (get_content_not_mapping result T M) in H. discriminate. }
  destruct result as [| | | | | |d]; try discriminate.
  assert (Dne : d <> []) by (intros ->; discriminate).
  destruct (Dict.get "content" d) as [c|] eqn:C.
  2:{ rewrite (get_content_missing d Dne) in H by (now rewrite C). discriminate. }
  destruct (truthy c) eqn:Tc.
  2:{ rewrite (get_content_missing d Dne) in H by (now rewrite C). discriminate. }
  destruct (is_mapping c) eqn:Mc.
  2:{ rewrite (get_content_content_not_mapping d c C Tc Mc) in H. discriminate. }
  destruct c as [| | | | | |content]; try discriminate.
  assert (Hne : content <> []) by (intros ->; discriminate).
  rewrite (get_content_of_mapping d content C Hne) in H. injection H as <-.
  exists d, content. repeat split; auto.
  intros type. exists (Dict.remove "content" (Dict.set "type" type d)). split.
  - unfold Dict.pop. rewrite get_set_other by discriminate. now rewrite C.
  - apply get_remove_same.
Qed.

Lemma extracted_has_content_witness :
  exists d content,
    PDict raw_audio = PDict d
    /\ Dict.get "content" d = Some (PDict content) /\ content <> [].
Proof.
  destruct (extracted_has_content (PDict raw_audio) PNone eq_refl)
    as (d & content & H1 & H2 & H3 & _).
  exists d, content. repeat split; assumption.
Defined.

(** X4. With no type tag, a tag that is empty or null, or the tag ["TEXT"],
    the body is the [text] field as it is (null when there is none); with the
    tag ["IMAGE"] it is the [byteContent] field as it is (null when there is
    none). *)
Theorem text_and_image_bodies (raw content : dict) :
  Dict.get "content" raw = Some (PDict content) -> content <> [] ->
  ((truthy (get_or "type" content PNone) = false
    \/ Dict.get "type" content = Some (PStr "TEXT")) ->
   _get_content_from_result (PDict raw) = Ok (get_or "text" content PNone))
  /\ (Dict.get "type" content = Some (PStr "IMAGE") ->
      _get_content_from_result (PDict raw)
      = Ok (get_or "byteContent" content PNone)).
Proof.
  intros Hc Hne. rewrite (get_content_of_mapping raw content Hc Hne).
  unfold content_body. split.
  - intros [F | T].
    + now rewrite F.
    + assert (G : get_or "type" content PNone = PStr "TEXT")
        by (unfold get_or; now rewrite T).
      now rewrite G.
  - intros T.
    assert (G : get_or "type" content PNone = PStr "IMAGE")
      by (unfold get_or; now rewrite T).
    now rewrite G.
Qed.

Lemma text_and_image_bodies_witness :
  _get_content_from_result (PDict raw_image) = Ok (PStr "aGk=").
Proof.
  apply (text_and_image_bodies raw_image
           [("type", PStr "IMAGE"); ("byteContent", PStr "aGk=")]);
    [reflexivity | discriminate | reflexivity].
Defined.

(** X5. A result that is not a mapping, or whose content is not one, is not
    reported as an invalid result when it is truthy: the call [.get] on it
    raises [AttributeError]; a content that is falsy (null, 0, an empty
    string or list) is reported like a missing content. *)
Theorem not_a_mapping_errors (result : pyval) :
  (truthy result = true -> is_mapping result = false ->
   _get_content_from_result result = Raise AttributeError)
  /\ (forall d c, result = PDict d -> Dict.get "content" d = Some c ->
                  truthy c = true -> is_mapping c = false ->
                  _get_content_from_result result = Raise AttributeError)
  /\ (forall d c, result = PDict d -> Dict.get "content" d = Some c ->
                  truthy c = false ->
                  _get_content_from_result result = Raise missing_content).
Proof.
  repeat split.
  - apply get_content_not_mapping.
  - intros d c ->. apply get_content_content_not_mapping.
  - intros d c -> C F. apply get_content_missing.
    + intros ->. discriminate.
    + now rewrite C.
Qed.

Lemma not_a_mapping_errors_witness :
  _get_content_from_result (PDict [("content", PStr "plain text")])
  = Raise AttributeError.
Proof.
  apply (proj1 (proj2 (not_a_mapping_errors (PDict [("content", PStr "plain text")])))
           [("content", PStr "plain text")] (PStr "plain text"));
    reflexivity.
Defined.

(** X6. Decoding adds no key other than [type], [score] and
    [source_metadata]: every key of the metadata is one of those three or a
    key of the raw result, and [type] and [score] are always there. *)
Theorem decoded_keys (raw content : dict) :
  Dict.get "content" raw = Some (PDict content) -> content <> [] ->
  exists doc,
    result_to_document (PDict raw) = Ok doc
    /\ Dict.mem "type" (metadata doc) = true
    /\ Dict.mem "score" (metadata doc) = true
    /\ forall k, Dict.mem k (metadata doc) = true ->
                 Dict.mem k raw = true
                 \/ k = "type" \/ k = "score" \/ k = "source_metadata".
Proof.
  intros Hc Hne. eexists. split; [apply (result_to_document_ok raw content Hc Hne)|].
  cbn [metadata]. unfold Dict.mem.
  rewrite decoded_type, decoded_score. repeat split.
  intros k Hk.
  destruct (string_dec k "type") as [|N2]; [auto|].
  destruct (string_dec k "score") as [|N3]; [auto|].
  destruct (string_dec k "source_metadata") as [|N5]; [auto|].
  destruct (string_dec k "content") as [->|N1].
  { rewrite decoded_content in Hk. discriminate. }
  destruct (string_dec k "metadata") as [->|N4].
  { rewrite (proj1 (decoded_metadata_key raw content)) in Hk. discriminate. }
  left. rewrite decoded_passthrough in Hk by (repeat split; assumption).
  exact Hk.
Qed.

Lemma decoded_keys_witness :
  exists doc,
    result_to_document (PDict raw_no_score) = Ok doc
    /\ Dict.mem "score" (metadata doc) = true.
Proof.
  destruct (decoded_keys raw_no_score [("text", PStr "hi")])
    as (doc & H1 & _ & H3 & _).
  - reflexivity.
  - discriminate.
  - exists doc. split; [exact H1 | exact H3].
Defined.

(** X7. The metadata of a document is the raw result itself, updated in
    place, and it cannot be decoded a second time: its content is gone, so
    that decoding it again, alone or in a list, raises the invalid-result
    error. *)
Theorem decoded_record_not_decodable (raw content : dict) :
  Dict.get "content" raw = Some (PDict content) -> content <> [] ->
  exists doc,
    result_to_document (PDict raw) = Ok doc
    /\ result_to_document (PDict (metadata doc)) = Raise missing_content
    /\ forall after,
        _retrieval_results_to_documents (PDict (metadata doc) :: after)
        = Raise missing_content.
Proof.
  intros Hc Hne. eexists. split; [apply (result_to_document_ok raw content Hc Hne)|].
  cbn [metadata].
  assert (R : result_to_document (PDict (decoded_metadata raw content))
              = Raise missing_content).
  { unfold result_to_document. rewrite get_content_missing; [reflexivity| |].
    - intros E. pose proof (decoded_type raw content) as T. rewrite E in T.
      discriminate.
    - now rewrite decoded_content. }
  split; [exact R|].
  intros after. cbn [_retrieval_results_to_documents]. now rewrite R.
Qed.

Lemma decoded_record_not_decodable_witness :
  exists doc,
    result_to_document (PDict raw_text_hi) = Ok doc
    /\ result_to_document (PDict (metadata doc)) = Raise missing_content.
Proof.
  destruct (decoded_record_not_decodable raw_text_hi
              [("type", PStr "TEXT"); ("text", PStr "hi")])
    as (doc & H1 & H2 & _).
  - reflexivity.
  - discriminate.
  - exists doc. split; [exact H1 | exact H2].
Defined.

Lemma num_compare_antisym (x y : num) :
  num_compare y x = option_map CompOpp (num_compare x y).
Proof.
  destruct x as [m1 e1|[]|], y as [m2 e2|[]|]; try reflexivity.
  cbn [num_compare option_map]. rewrite (Z.min_comm e2 e1).
  now rewrite Z.compare_antisym.
Qed.

Lemma zero_below_positive (f : spec_float) :
  float_positive f = true -> num_ge (Dyadic 0 0) (num_of_float f) = false.
Proof.
  unfold float_positive, num_ge. rewrite (num_compare_antisym (num_of_float f)).
  destruct (num_compare (num_of_float f) (Dyadic 0 0)) as [[]|];
    try discriminate; reflexivity.
Qed.

(** X8. A raw result without a [score] key gets the score 0, and so every
    positive threshold filters its document out. *)
Theorem absent_score_is_dropped (raw content : dict) :
  Dict.get "score" raw = None ->
  Dict.get "content" raw = Some (PDict content) -> content <> [] ->
  exists doc,
    _retrieval_results_to_documents [PDict raw] = Ok [doc]
    /\ Dict.get "score" (metadata doc) = Some (PInt 0)
    /\ forall self min_score before after,
        min_score_confidence self = Some min_score ->
        float_positive min_score = true ->
        _filter_by_score_confidence self (before ++ doc :: after)%list
        = _filter_by_score_confidence self (before ++ after)%list.
Proof.
  intros Hs Hc Hne.
  exists {| page_content := content_body content;
            metadata := decoded_metadata raw content |}.
  cbn [_retrieval_results_to_documents].
  rewrite (result_to_document_ok raw content Hc Hne). cbn [bind metadata].
  assert (S : Dict.get "score" (decoded_metadata raw content) = Some (PInt 0)).
  { rewrite decoded_score. unfold get_or. now rewrite Hs. }
  split; [reflexivity|]. split; [exact S|].
  intros self min_score before after Hmin Hpos.
  unfold _filter_by_score_confidence. rewrite Hmin. cbn [truthy].
  rewrite (positive_not_zero _ Hpos). cbn [negb].
  apply keep_passing_skip.
  unfold score_passes. cbn [py_get metadata bind]. rewrite S.
  cbn [is_not_None py_ge_float num_of bind]. unfold py_ge_float. cbn [num_of].
  now rewrite (zero_below_positive _ Hpos).
Qed.

Lemma absent_score_is_dropped_witness :
  exists doc,
    _retrieval_results_to_documents [PDict raw_no_score] = Ok [doc]
    /\ _filter_by_score_confidence (retriever (Some float_0_5)) [doc] = Ok [].
Proof.
  destruct (absent_score_is_dropped raw_no_score [("text", PStr "hi")])
    as (doc & H1 & _ & H3).
  - reflexivity.
  - reflexivity.
  - discriminate.
  - exists doc. split; [exact H1|].
    apply (H3 (retriever (Some float_0_5)) float_0_5 [] []); reflexivity.
Defined.

(** * Further properties of the request *)

Lemma lstrip_leading (l s : string) :
  all_space l = true -> lstrip (l ++ s) = lstrip s.
Proof.
  induction l as [|c l IH]; simpl; auto.
  intros H. apply andb_prop in H. destruct H as [Hc Hl]. rewrite Hc. auto.
Qed.

Lemma lstrip_all_space (l : string) : all_space l = true -> lstrip l = "".
Proof.
  induction l as [|c l IH]; simpl; auto.
  intros H. apply andb_prop in H. destruct H as [Hc Hl]. rewrite Hc. auto.
Qed.

Lemma rstrip_all_space (r : string) : all_space r = true -> rstrip r = "".
Proof.
  induction r as [|c r IH]; simpl; auto.
  intros H. apply andb_prop in H. destruct H as [Hc Hr]. now rewrite IH, Hc.
Qed.

Lemma rstrip_trailing (s r : string) :
  all_space r = true -> rstrip (s ++ r) = rstrip s.
Proof.
  intros H. induction s as [|c s IH]; simpl.
  - now apply rstrip_all_space.
  - now rewrite IH.
Qed.

Lemma lstrip_trailing (q r : string) :
  all_space r = true ->
  lstrip (q ++ r) = lstrip q ++ r \/ (lstrip q = "" /\ lstrip (q ++ r) = "").
Proof.
  intros H. induction q as [|c q IH]; simpl.
  - right. split; auto. now apply lstrip_all_space.
  - destruct (isspace c); auto.
Qed.

Lemma strip_surrounded (l q r : string) :
  all_space l = true -> all_space r = true -> strip (l ++ q ++ r) = strip q.
Proof.
  intros Hl Hr. unfold strip. rewrite lstrip_leading by assumption.
  destruct (lstrip_trailing q r Hr) as [E | [E1 E2]].
  - rewrite E. now apply rstrip_trailing.
  - now rewrite E1, E2.
Qed.

(** X9. The request depends on the query only up to the white space around
    it: adding white space before and after changes nothing, trimming the
    query beforehand changes nothing, and a query of white space alone is
    sent as the empty text, without an error. *)
Theorem request_ignores_surrounding_space
    (self : AmazonKnowledgeBasesRetriever) (query : string) :
  (forall l r, all_space l = true -> all_space r = true ->
               _get_retrieve_request self (l ++ query ++ r)
               = _get_retrieve_request self query)
  /\ _get_retrieve_request self (strip query) = _get_retrieve_request self query
  /\ (all_space query = true ->
      _get_retrieve_request self query = _get_retrieve_request self ""
      /\ forall config,
          retrieval_config self = option_map ConfigModel config ->
          exists request,
            _get_retrieve_request self query = Ok request
            /\ Dict.get "retrievalQuery" request = Some (PDict [("text", PStr "")])).
Proof.
  assert (S : forall q1 q2, strip q1 = strip q2 ->
                            _get_retrieve_request self q1
                            = _get_retrieve_request self q2).
  { intros q1 q2 E. unfold _get_retrieve_request. now rewrite E. }
  split; [|split].
  - intros l r Hl Hr. apply S. now apply strip_surrounded.
  - apply S. destruct (strip_split query) as (l & r & E & Hl & Hr & _).
    rewrite E at 2. symmetry. now apply strip_surrounded.
  - intros H.
    assert (E : strip query = "")
      by (unfold strip; now rewrite (lstrip_all_space query H)).
    split; [now apply S|].
    intros config Hcfg. unfold _get_retrieve_request. rewrite E, Hcfg.
    destruct config; cbn; eexists; split; reflexivity.
Qed.

Lemma request_ignores_surrounding_space_witness :
  _get_retrieve_request (retriever None) ("  " ++ "hello world" ++ "  ")
  = _get_retrieve_request (retriever None) "hello world".
Proof.
  apply (request_ignores_surrounding_space (retriever None) "hello world");
    reflexivity.
Defined.

(** * Further properties of the score filter *)

Lemma dyadic_rescale (m1 e1 m2 e2 k : Z) :
  k <= e1 -> k <= e2 ->
  (m2 * 2 ^ (e2 - Z.min e1 e2) <= m1 * 2 ^ (e1 - Z.min e1 e2)
   <-> m2 * 2 ^ (e2 - k) <= m1 * 2 ^ (e1 - k)).
Proof.
  intros H1 H2. set (e := Z.min e1 e2).
  assert (He : k <= e) by (subst e; lia).
  assert (E1 : e <= e1) by (subst e; lia).
  assert (E2 : e <= e2) by (subst e; lia).
  replace (e1 - k) with ((e1 - e) + (e - k)) by lia.
  replace (e2 - k) with ((e2 - e) + (e - k)) by lia.
  rewrite !Z.pow_add_r by lia. rewrite !Z.mul_assoc.
  assert (P : 0 < 2 ^ (e - k)) by (apply Z.pow_pos_nonneg; lia).
  split; intros H.
  - now apply Z.mul_le_mono_nonneg_r; [lia|].
  - now apply Z.mul_le_mono_pos_r in H.
Qed.

Lemma dyadic_ge (m1 e1 m2 e2 : Z) :
  num_ge (Dyadic m1 e1) (Dyadic m2 e2) = true
  <-> m2 * 2 ^ (e2 - Z.min e1 e2) <= m1 * 2 ^ (e1 - Z.min e1 e2).
Proof.
  unfold num_ge, num_compare.
  destruct (Z.compare_spec (m1 * 2 ^ (e1 - Z.min e1 e2))
              (m2 * 2 ^ (e2 - Z.min e1 e2))); split; intros;
    try reflexivity; try discriminate; lia.
Qed.

Lemma num_ge_trans (x y z : num) :
  num_ge x y = true -> num_ge y z = true -> num_ge x z = true.
Proof.
  destruct x as [m1 e1|s1|], y as [m2 e2|s2|], z as [m3 e3|s3|];
    try (destruct s1); try (destruct s2); try (destruct s3);
    try reflexivity; try discriminate; try (intros; discriminate).
  rewrite !dyadic_ge. intros H12 H23.
  set (k := Z.min e1 (Z.min e2 e3)).
  apply (dyadic_rescale m1 e1 m2 e2 k) in H12; [|subst k; lia|subst k; lia].
  apply (dyadic_rescale m2 e2 m3 e3 k) in H23; [|subst k; lia|subst k; lia].
  apply (dyadic_rescale m1 e1 m3 e3 k); [subst k; lia|subst k; lia|].
  lia.
Qed.

Lemma filter_filter_implied {A} (p q : A -> bool) (l : list A) :
  (forall x, p x = true -> q x = true) ->
  List.filter p (List.filter q l) = List.filter p l.
Proof.
  intros H. induction l as [|x l IH]; simpl; auto.
  destruct (q x) eqn:Q; simpl.
  - now rewrite IH.
  - destruct (p x) eqn:P; auto. apply H in P. congruence.
Qed.

Lemma typed_filter (p : Document -> bool) (docs : list Document) :
  forallb score_typed docs = true ->
  forallb score_typed (List.filter p docs) = true.
Proof.
  induction docs as [|d docs IH]; simpl; auto.
  intros H. apply andb_prop in H. destruct H as [Hd Hs].
  destruct (p d); simpl; auto. now rewrite Hd, IH.
Qed.

Lemma keep_passing_ok (min_score : spec_float) (docs kept : list Document) :
  keep_passing min_score docs = Ok kept ->
  forallb score_typed docs = true
  /\ kept = List.filter (score_at_least min_score) docs.
Proof.
  rewrite keep_passing_filter.
  destruct (forallb score_typed docs); [|discriminate].
  now intros [= <-].
Qed.

Lemma score_at_least_mono (m1 m2 : spec_float) (item : Document) :
  num_ge (num_of_float m2) (num_of_float m1) = true ->
  score_at_least m2 item = true -> score_at_least m1 item = true.
Proof.
  unfold score_at_least. intros H.
  destruct (Dict.get "score" (metadata item)) as [v|]; auto.
  destruct (num_of v) as [x|]; auto.
  intros Hx. exact (num_ge_trans _ _ _ Hx H).
Qed.

(** X11. Filtering is idempotent: the documents the filter returns pass it
    again unchanged. *)
Theorem filter_idempotent (self : AmazonKnowledgeBasesRetriever)
    (docs kept : list Document) :
  _filter_by_score_confidence self docs = Ok kept ->
  _filter_by_score_confidence self kept = Ok kept.
Proof.
  unfold _filter_by_score_confidence.
  destruct (min_score_confidence self) as [m|]; [|now intros [= <-]].
  destruct (negb (truthy (PFloat m))); [now intros [= <-]|].
  intros H. apply keep_passing_ok in H. destruct H as [T ->].
  rewrite keep_passing_filter, typed_filter by assumption.
  now rewrite filter_filter_implied.
Qed.

Lemma filter_idempotent_witness :
  _filter_by_score_confidence (retriever (Some float_0_5))
    [scored (PFloat float_0_9); scored (PFloat float_0_5)]
  = Ok [scored (PFloat float_0_9); scored (PFloat float_0_5)].
Proof.
  apply (filter_idempotent (retriever (Some float_0_5)) scores_0_9_0_3_null_0_5).
  reflexivity.
Defined.

(** X12. Raising the threshold only removes documents: filtering at a
    threshold and then at a higher one gives what filtering at the higher
    one gives at once. *)
Theorem higher_threshold_keeps_less (self1 self2 : AmazonKnowledgeBasesRetriever)
    (m1 m2 : spec_float) (docs kept : list Document) :
  min_score_confidence self1 = Some m1 ->
  min_score_confidence self2 = Some m2 ->
  num_ge (num_of_float m2) (num_of_float m1) = true ->
  float_is_zero m2 = false ->
  _filter_by_score_confidence self1 docs = Ok kept ->
  _filter_by_score_confidence self2 kept = _filter_by_score_confidence self2 docs
  /\ forall kept2, _filter_by_score_confidence self2 docs = Ok kept2 ->
                   incl kept2 kept.
Proof.
  unfold _filter_by_score_confidence. intros -> -> Hle Hz. cbn [truthy].
  rewrite Hz. cbn [negb].
  assert (I : forall l k, keep_passing m2 l = Ok k -> incl k l).
  { intros l k H. apply keep_passing_ok in H. destruct H as [_ ->].
    intros x Hx. apply filter_In in Hx. tauto. }
  destruct (negb (negb (float_is_zero m1))).
  - intros [= <-]. split; [reflexivity | apply I].
  - intros H. apply keep_passing_ok in H. destruct H as [T ->].
    assert (E : keep_passing m2 (List.filter (score_at_least m1) docs)
                = keep_passing m2 docs).
    { rewrite !keep_passing_filter, T, typed_filter by assumption.
      rewrite filter_filter_implied; [reflexivity|].
      intros x. now apply score_at_least_mono. }
    split; [exact E|]. intros kept2 H2. apply I. now rewrite E.
Qed.

Lemma higher_threshold_keeps_less_witness :
  _filter_by_score_confidence (retriever (Some float_0_9))
    [scored (PFloat float_0_9); scored (PFloat float_0_5)]
  = _filter_by_score_confidence (retriever (Some float_0_9)) scores_0_9_0_3_null_0_5.
Proof.
  apply (higher_threshold_keeps_less (retriever (Some float_0_5))
           (retriever (Some float_0_9)) float_0_5 float_0_9
           scores_0_9_0_3_null_0_5); reflexivity.
Defined.

(** * The whole retrieval *)

(** X13. What goes wrong at the remote call comes out as it is: an error of
    the client is the error of the retrieval, a response without the key
    [retrievalResults] raises [KeyError], results that are null raise
    [TypeError]; and an empty list of results gives no document, whatever
    the threshold. *)
Theorem relevant_documents_edges (self : AmazonKnowledgeBasesRetriever)
    (client_retrieve : dict -> outcome pyval) (query : string) (request : dict) :
  _get_retrieve_request self query = Ok request ->
  (forall e, client_retrieve request = Raise e ->
             _get_relevant_documents self client_retrieve query = Raise e)
  /\ (forall response, client_retrieve request = Ok (PDict response) ->
        (Dict.get "retrievalResults" response = None ->
         _get_relevant_documents self client_retrieve query
         = Raise (KeyError "retrievalResults"))
        /\ (Dict.get "retrievalResults" response = Some PNone ->
            _get_relevant_documents self client_retrieve query = Raise TypeError)
        /\ (Dict.get "retrievalResults" response = Some (PList []) ->
            _get_relevant_documents self client_retrieve query = Ok [])).
Proof.
  intros Hr. unfold _get_relevant_documents. rewrite Hr. cbn [bind]. split.
  - now intros e ->.
  - intros response ->. cbn [bind py_getitem]. repeat split; intros ->; try reflexivity.
    cbn. unfold _filter_by_score_confidence.
    destruct (min_score_confidence self) as [m|]; [|reflexivity].
    now destruct (negb (truthy (PFloat m))).
Qed.

Lemma relevant_documents_edges_witness :
  _get_relevant_documents (retriever (Some float_0_5))
    (fun _ => Raise (ValueError "throttled")) " hello "
  = Raise (ValueError "throttled").
Proof.
  apply (relevant_documents_edges (retriever (Some float_0_5))
           (fun _ => Raise (ValueError "throttled")) " hello "
           [("retrievalQuery", PDict [("text", PStr "hello")]);
            ("knowledgeBaseId", PStr "kb-1")]);
    reflexivity.
Defined.

Lemma filter_returns_part (self : AmazonKnowledgeBasesRetriever)
    (docs kept : list Document) :
  _filter_by_score_confidence self docs = Ok kept ->
  (List.length kept <= List.length docs)%nat /\ incl kept docs.
Proof.
  unfold _filter_by_score_confidence.
  destruct (min_score_confidence self) as [m|].
  - destruct (negb (truthy (PFloat m))).
    + intros [= <-]. split; [lia | apply incl_refl].
    + intros H. apply keep_passing_ok in H. destruct H as [_ ->]. split.
      * apply filter_length_le.
      * intros x Hx. apply filter_In in Hx. tauto.
  - intros [= <-]. split; [lia | apply incl_refl].
Qed.

(** X14. A retrieval that returns has called the client once with the
    request built from the query, has decoded every result of the response
    in order, and returns documents among the decoded ones, never more than
    there were results. *)
Theorem relevant_documents_composition (self : AmazonKnowledgeBasesRetriever)
    (client_retrieve : dict -> outcome pyval) (query : string)
    (docs : list Document) :
  _get_relevant_documents self client_retrieve query = Ok docs ->
  exists request response results decoded,
    _get_retrieve_request self query = Ok request
    /\ client_retrieve request = Ok response
    /\ (results_of <- py_getitem response "retrievalResults";; py_iter results_of)
       = Ok results
    /\ Forall2 (fun r d => result_to_document r = Ok d) results decoded
    /\ _filter_by_score_confidence self decoded = Ok docs
    /\ incl docs decoded
    /\ (List.length docs <= List.length results)%nat.
Proof.
  unfold _get_relevant_documents. intros H.
  destruct (_get_retrieve_request self query) as [request|] eqn:R;
    cbn [bind] in H; [|discriminate].
  destruct (client_retrieve request) as [response|] eqn:C;
    cbn [bind] in H; [|discriminate].
  destruct (py_getitem response "retrievalResults") as [found|] eqn:G;
    cbn [bind] in H; [|discriminate].
  destruct (py_iter found) as [results|] eqn:I; cbn [bind] in H; [|discriminate].
  destruct (_retrieval_results_to_documents results) as [decoded|] eqn:D;
    cbn [bind] in H; [|discriminate].
  exists request, response, results, decoded.
  apply documents_pointwise in D.
  destruct (filter_returns_part self decoded docs H) as [L In_].
  repeat split; auto.
  - rewrite G. exact I.
  - rewrite (Forall2_length D). exact L.
Qed.

Lemma relevant_documents_composition_witness :
  exists request,
    _get_retrieve_request (retriever (Some float_0_5)) "hello" = Ok request.
Proof.
  destruct (relevant_documents_composition (retriever (Some float_0_5))
              (fun _ => Ok (PDict [("retrievalResults", PList [PDict raw_text_hi])]))
              "hello"
              [{| page_content := PStr "hi"; metadata := decoded_text_hi |}])
    as (request & _ & _ & _ & H & _).
  - reflexivity.
  - exists request. exact H.
Defined.

(** * Further properties of the configuration models *)

Lemma get_in (k : string) (v : pyval) (d : dict) :
  Dict.get k d = Some v -> In (k, v) d.
Proof.
  induction d as [|[k' v'] d IH]; simpl; [discriminate|].
  destruct (String.eqb k k') eqn:E.
  - apply String.eqb_eq in E. subst k'. intros [= <-]. now left.
  - intros H. right. now apply IH.
Qed.

Lemma no_null_get (d : dict) (k : string) :
  no_null d -> Dict.get k d <> Some PNone.
Proof.
  intros N H. apply get_in in H. unfold no_null in N.
  rewrite Forall_forall in N. now apply (N _ H).
Qed.

Lemma no_null_field (name : string) (v : option pyval) :
  v <> Some PNone -> no_null (field name v).
Proof.
  intros H. destruct v as [x|]; constructor; [|constructor].
  cbn. congruence.
Qed.

Lemma no_null_extra (extra : dict) : no_null (dump_extra extra).
Proof.
  unfold no_null, dump_extra. apply Forall_forall. intros kv H.
  apply filter_In in H. destruct H as [_ H]. now destruct (snd kv).
Qed.

Lemma no_null_filter (f : SearchFilter.t) : no_null (SearchFilter.model_dump f).
Proof.
  destruct f as [a o eq gt ge i lt le lc ne ni sw sc].
  cbn [SearchFilter.model_dump]. unfold no_null.
  repeat (apply Forall_app; split);
    apply no_null_field;
    match goal with
    | |- SearchFilter.leaf ?v <> _ => now destruct v
    | |- match ?c with Some _ => _ | None => _ end <> _ => now destruct c
    end.
Qed.

(** X15. No key of a serialized configuration holds null: a field that is
    [None] is left out of the dump of a SearchFilter, of a
    VectorSearchConfig and of a RetrievalConfig, extra fields included. *)
Theorem dumps_hold_no_null :
  (forall (f : SearchFilter.t) k,
      Dict.get k (SearchFilter.model_dump f) <> Some PNone)
  /\ (forall (c : VectorSearchConfig.t) k,
         Dict.get k (VectorSearchConfig.model_dump c) <> Some PNone)
  /\ (forall (c : RetrievalConfig.t) k,
         Dict.get k (RetrievalConfig.model_dump c) <> Some PNone).
Proof.
  repeat split; intros; apply no_null_get.
  - apply no_null_filter.
  - unfold VectorSearchConfig.model_dump, no_null.
    repeat (apply Forall_app; split);
      try apply no_null_extra; apply no_null_field; try discriminate.
    + now destruct (VectorSearchConfig.filter c).
    + now destruct (VectorSearchConfig.overrideSearchType c).
  - unfold RetrievalConfig.model_dump, no_null.
    repeat (apply Forall_app; split);
      try apply no_null_extra; apply no_null_field; try discriminate.
    now destruct (RetrievalConfig.nextToken c).
Qed.

(** X16. A SearchFilter ignores the keys that are none of its fields: a
    mapping with such a key added, or changed, builds the same filter, or
    fails the same way. *)
Theorem search_filter_ignores_unknown_keys (d : dict) (k : string) (v : pyval) :
  ~ In k SearchFilter_keys ->
  SearchFilter.model_validate (PDict (Dict.set k v d))
  = SearchFilter.model_validate (PDict d).
Proof.
  intros H. cbn [SearchFilter.model_validate]. rewrite !nodes_with_get.
  unfold SearchFilter.by_alias_or_name.
  rewrite !(get_set_other _ k)
    by (intros <-; apply H; unfold SearchFilter_keys; simpl; tauto).
  reflexivity.
Qed.

Lemma search_filter_ignores_unknown_keys_witness :
  SearchFilter.model_validate
    (PDict (Dict.set "containsAny" (PInt 1) [("in", PDict [("key", PStr "tag")])]))
  = SearchFilter.model_validate (PDict [("in", PDict [("key", PStr "tag")])]).
Proof.
  apply (search_filter_ignores_unknown_keys
           [("in", PDict [("key", PStr "tag")])] "containsAny" (PInt 1)).
  unfold SearchFilter_keys. simpl.
  intros H. repeat (destruct H as [H|H]; [discriminate H|]). exact H.
Defined.

(** a filter that is built holds, field by field, what its mapping holds *)
Lemma validated_fields (d : dict) (f : SearchFilter.t) :
  SearchFilter.model_validate (PDict d) = Ok f ->
  node_field SearchFilter.model_validate (Dict.get "andAll" d)
  = Ok (SearchFilter.andAll f)
  /\ node_field SearchFilter.model_validate (Dict.get "orAll" d)
     = Ok (SearchFilter.orAll f)
  /\ SearchFilter.filter_field (Dict.get "equals" d) = Ok (SearchFilter.equals f)
  /\ SearchFilter.filter_field (Dict.get "greaterThan" d)
     = Ok (SearchFilter.greaterThan f)
  /\ SearchFilter.filter_field (Dict.get "greaterThanOrEquals" d)
     = Ok (SearchFilter.greaterThanOrEquals f)
  /\ SearchFilter.filter_field (SearchFilter.by_alias_or_name "in" "in_" d)
     = Ok (SearchFilter.in_ f)
  /\ SearchFilter.filter_field (Dict.get "lessThan" d) = Ok (SearchFilter.lessThan f)
  /\ SearchFilter.filter_field (Dict.get "lessThanOrEquals" d)
     = Ok (SearchFilter.lessThanOrEquals f)
  /\ SearchFilter.filter_field (Dict.get "listContains" d)
     = Ok (SearchFilter.listContains f)
  /\ SearchFilter.filter_field (Dict.get "notEquals" d)
     = Ok (SearchFilter.notEquals f)
  /\ SearchFilter.filter_field (Dict.get "notIn" d) = Ok (SearchFilter.notIn f)
  /\ SearchFilter.filter_field (Dict.get "startsWith" d)
     = Ok (SearchFilter.startsWith f)
  /\ SearchFilter.filter_field (Dict.get "stringContains" d)
     = Ok (SearchFilter.stringContains f).
Proof.
  intros H. cbn [SearchFilter.model_validate] in H. rewrite !nodes_with_get in H.
  repeat match type of H with
         | bind ?m _ = Ok _ => destruct m; cbn [bind] in H; [|discriminate H]
         end.
  injection H as <-. repeat split; reflexivity.
Qed.

(** X17. The field [in_] of a SearchFilter is read under its alias ["in"]
    first, and under its name ["in_"] only when the mapping has no key
    ["in"]: with both keys the alias decides, also when it holds null. *)
Theorem alias_before_name (d : dict) (f : SearchFilter.t) :
  SearchFilter.model_validate (PDict d) = Ok f ->
  (forall v, Dict.get "in" d = Some (PDict v) -> SearchFilter.in_ f = Some v)
  /\ (Dict.get "in" d = Some PNone -> SearchFilter.in_ f = None)
  /\ (Dict.get "in" d = None ->
      (forall v, Dict.get "in_" d = Some (PDict v) -> SearchFilter.in_ f = Some v)
      /\ (Dict.get "in_" d = None -> SearchFilter.in_ f = None)).
Proof.
  intros H. apply validated_fields in H.
  destruct H as (_ & _ & _ & _ & _ & H & _).
  unfold SearchFilter.by_alias_or_name in H. split; [|split].
  - intros v E. rewrite E in H. cbn in H. congruence.
  - intros E. rewrite E in H. cbn in H. congruence.
  - intros E. rewrite E in H. split.
    + intros v E'. rewrite E' in H. cbn in H. congruence.
    + intros E'. rewrite E' in H. cbn in H. congruence.
Qed.

Lemma alias_before_name_witness :
  SearchFilter.in_ (in_filter [("key", PStr "tag")]) = Some [("key", PStr "tag")].
Proof.
  apply (proj1 (alias_before_name
                  [("in_", PDict [("key", PStr "other")]);
                   ("in", PDict [("key", PStr "tag")])]
                  (in_filter [("key", PStr "tag")]) eq_refl)).
  reflexivity.
Defined.

Lemma each_with_raises {A} (validate : pyval -> outcome A) (l : list pyval)
    (c : pyval) :
  In c l -> raises (validate c) -> raises (SearchFilter.each_with validate l).
Proof.
  intros Hin [e He]. induction l as [|y l IH]; [contradiction|].
  cbn [SearchFilter.each_with].
  destruct Hin as [-> | Hin].
  - rewrite He. now exists e.
  - destruct (validate y); cbn [bind]; [|eexists; reflexivity].
    destruct (IH Hin) as [e' He'].
    fold (SearchFilter.each_with validate l). rewrite He'. now exists e'.
Qed.

Lemma not_ok_raises {A} (o : outcome A) : (forall a, o <> Ok a) -> raises o.
Proof. destruct o as [a|e]; intros H; [now destruct (H a) | now exists e]. Qed.

(** X18. A SearchFilter is built from a mapping only: any other value is a
    validation error; so is a mapping in which [andAll] or [orAll] holds
    something other than a list or null, or a list with a member that is no
    valid filter, at any depth, or in which a comparison field holds
    something other than a mapping or null. *)
Theorem search_filter_rejects (v : pyval) :
  (is_mapping v = false -> SearchFilter.model_validate v = Raise ValidationError)
  /\ (forall d k x,
         v = PDict d -> k = "andAll" \/ k = "orAll" ->
         Dict.get k d = Some x ->
         (match x with PNone | PList _ => False | _ => True end
          \/ exists l c, x = PList l /\ In c l
                         /\ raises (SearchFilter.model_validate c)) ->
         raises (SearchFilter.model_validate v))
  /\ (forall d k x,
         v = PDict d ->
         In k ["equals"; "greaterThan"; "greaterThanOrEquals"; "in"; "lessThan";
               "lessThanOrEquals"; "listContains"; "notEquals"; "notIn";
               "startsWith"; "stringContains"] ->
         Dict.get k d = Some x -> x <> PNone -> is_mapping x = false ->
         raises (SearchFilter.model_validate v)).
Proof.
  split; [|split].
  - destruct v; try reflexivity; discriminate.
  - intros d k x -> Hk Hx Hbad. apply not_ok_raises. intros f Hf.
    apply validated_fields in Hf. destruct Hf as (Ha & Ho & _).
    assert (N : raises (node_field SearchFilter.model_validate (Some x))).
    { destruct Hbad as [Hbad | (l & c & -> & Hin & Hc)].
      - destruct x; try contradiction; eexists; reflexivity.
      - cbn [node_field].
        destruct (each_with_raises SearchFilter.model_validate l c Hin Hc) as [e He].
        rewrite He. now exists e. }
    destruct N as [e He].
    destruct Hk as [-> | ->]; rewrite Hx in *; congruence.
  - intros d k x -> Hk Hx Hnull Hmap. apply not_ok_raises. intros f Hf.
    apply validated_fields in Hf.
    destruct Hf as (_ & _ & F1 & F2 & F3 & F4 & F5 & F6 & F7 & F8 & F9 & F10 & F11).
    unfold SearchFilter.by_alias_or_name in F4.
    assert (N : SearchFilter.filter_field (Some x) = Raise ValidationError)
      by (destruct x; try reflexivity; [congruence | discriminate]).
    simpl in Hk.
    repeat (destruct Hk as [<- | Hk]; [rewrite Hx in *; congruence|]).
    exact Hk.
Qed.

Lemma search_filter_rejects_witness :
  raises (SearchFilter.model_validate
            (PDict [("andAll", PList [PDict [("equals", PStr "x")]])])).
Proof.
  apply (proj1 (proj2 (search_filter_rejects
                         (PDict [("andAll", PList [PDict [("equals", PStr "x")]])])))
           [("andAll", PList [PDict [("equals", PStr "x")]])] "andAll"
           (PList [PDict [("equals", PStr "x")]]) eq_refl).
  - left. reflexivity.
  - reflexivity.
  - right. exists [PDict [("equals", PStr "x")]], (PDict [("equals", PStr "x")]).
    split; [reflexivity|]. split; [left; reflexivity|].
    exists ValidationError. reflexivity.
Defined.

(** X19. [overrideSearchType] takes the two strings ["HYBRID"] and
    ["SEMANTIC"] and no other: with any other string the configuration is
    not built, and an accepted one is serialized as it was given. *)
Theorem override_search_type_values (n : option Z) (kwargs : dict) (s : string) :
  ((exists c, VectorSearchConfig.new n None (Some (PStr s)) kwargs = Ok c)
   <-> s = "HYBRID" \/ s = "SEMANTIC")
  /\ (forall c, VectorSearchConfig.new n None (Some (PStr s)) kwargs = Ok c ->
                Dict.get "overrideSearchType" (VectorSearchConfig.model_dump c)
                = Some (PStr s))
  /\ (s <> "HYBRID" -> s <> "SEMANTIC" ->
      VectorSearchConfig.new n None (Some (PStr s)) kwargs = Raise ValidationError).
Proof.
  unfold VectorSearchConfig.new. cbn [VectorSearchConfig.filter_field bind
    VectorSearchConfig.search_type_field].
  destruct (String.eqb s "HYBRID") eqn:H1.
  { apply String.eqb_eq in H1. subst s. cbn [bind]. split; [|split].
    - split; eauto.
    - now intros c [= <-].
    - congruence. }
  destruct (String.eqb s "SEMANTIC") eqn:H2.
  { apply String.eqb_eq in H2. subst s. cbn [bind]. split; [|split].
    - split; eauto.
    - now intros c [= <-].
    - congruence. }
  apply String.eqb_neq in H1, H2. cbn [bind]. split; [|split].
  - split; [intros [c Hc]; discriminate | tauto].
  - discriminate.
  - reflexivity.
Qed.

Lemma override_search_type_values_witness :
  VectorSearchConfig.new (Some 4) None (Some (PStr "hybrid")) []
  = Raise ValidationError.
Proof.
  apply (override_search_type_values (Some 4) [] "hybrid"); discriminate.
Defined.

Lemma get_dump_extra (k : string) (v : pyval) (d : dict) :
  Dict.get k d = Some v -> v <> PNone -> Dict.get k (dump_extra d) = Some v.
Proof.
  intros H N. induction d as [|[k' v'] d IH]; [discriminate|].
  cbn [Dict.get] in H. cbn [dump_extra List.filter snd].
  destruct (String.eqb k k') eqn:E.
  - injection H as ->. destruct v; try congruence; cbn; now rewrite E.
  - destruct (is_not_None v'); cbn [Dict.get]; rewrite ?E; now apply IH.
Qed.

(** X20. A VectorSearchConfig keeps the arguments it does not declare and
    sends them on: an argument under another name than the three declared
    fields, with a value that is not null, is found under its name, with its
    value, in the serialized configuration. *)
Theorem extra_fields_are_serialized (n : option Z) (filter overrideSearchType : option pyval)
    (kwargs : dict) (c : VectorSearchConfig.t) (k : string) (v : pyval) :
  VectorSearchConfig.new n filter overrideSearchType kwargs = Ok c ->
  ~ In k VectorSearchConfig_fields ->
  Dict.get k kwargs = Some v -> v <> PNone ->
  Dict.get k (VectorSearchConfig.model_dump c) = Some v
  /\ forall token extra,
      Dict.get "vectorSearchConfiguration"
        (RetrievalConfig.model_dump (RetrievalConfig.Build c token extra))
      = Some (PDict (VectorSearchConfig.model_dump c)).
Proof.
  intros Hnew Hk Hv Hnn. unfold VectorSearchConfig.new in Hnew.
  destruct (VectorSearchConfig.filter_field filter) as [f|];
    cbn [bind] in Hnew; [|discriminate].
  destruct (VectorSearchConfig.search_type_field overrideSearchType) as [s|];
    cbn [bind] in Hnew; [|discriminate].
  injection Hnew as <-.
  assert (N1 : k <> "numberOfResults")
    by (intros ->; apply Hk; simpl; tauto).
  assert (N2 : k <> "filter") by (intros ->; apply Hk; simpl; tauto).
  assert (N3 : k <> "overrideSearchType") by (intros ->; apply Hk; simpl; tauto).
  split; [|reflexivity].
  unfold VectorSearchConfig.model_dump.
  cbn [VectorSearchConfig.numberOfResults VectorSearchConfig.filter
       VectorSearchConfig.overrideSearchType VectorSearchConfig.extra].
  rewrite !get_app, !get_field.
  apply String.eqb_neq in N1 as E1. apply String.eqb_neq in N2 as E2.
  apply String.eqb_neq in N3 as E3. rewrite E1, E2, E3.
  apply get_dump_extra; [|assumption].
  now rewrite !get_remove_other by assumption.
Qed.

Lemma extra_fields_are_serialized_witness :
  Dict.get "rerankingConfiguration"
    (VectorSearchConfig.model_dump
       (VectorSearchConfig.Build 4 None None
          [("rerankingConfiguration", PDict [("type", PStr "BEDROCK")])]))
  = Some (PDict [("type", PStr "BEDROCK")]).
Proof.
  apply (extra_fields_are_serialized None None None
           [("rerankingConfiguration", PDict [("type", PStr "BEDROCK")])]
           (VectorSearchConfig.Build 4 None None
              [("rerankingConfiguration", PDict [("type", PStr "BEDROCK")])])
           "rerankingConfiguration" (PDict [("type", PStr "BEDROCK")])).
  - reflexivity.
  - unfold VectorSearchConfig_fields. simpl.
    intros H. repeat (destruct H as [H|H]; [discriminate H|]). exact H.
  - reflexivity.
  - discriminate.
Defined.
